(** * Dialog widget: the open/close lifecycle and the focus trap

    A shallow embedding of [src/dialog/index.ts] (class [DialogBase]).

    The widget instance is a record of its fields; its methods are
    computations in a small monad that reads the host framework's
    services, threads the instance and logs the effects the method has on
    the outside world (focus queries and focus moves, the caller's
    callbacks, [stopPropagation] on DOM events).  A callback of the
    caller may raise: the method that called it then stops where it is,
    and so does its caller, with the instance as the assignments made so
    far left it.  The virtual tree built by [render] is an inductive
    type. *)

From Stdlib Require Import String ZArith List Bool Lia.
Import ListNotations.
Open Scope string_scope.
Open Scope Z_scope.
Open Scope list_scope.

#[local] Set Warnings "-register-all".

(** ** Values of the host language *)

(** The bound methods the widget hands out as listeners. *)
Inductive Handler : Type :=
| this_onUnderlayClick
| this_onCloseClick
| this_onKeyUp.

(** Class names imported from [../theme/dialog.m.css] ([css]) and from
    [./styles/dialog.m.css] ([fixedCss]).  The imported strings are kept
    symbolic. *)
Inductive CssClass : Type :=
| css_root | css_main | css_title | css_close | css_content
| css_underlayVisible | css_underlayEnter | css_underlayExit
| css_enter | css_exit
| fixedCss_underlay.

(** Property values found in the rendered tree. *)
Inductive Value : Type :=
| VUndefined
| VNull
| VBool (b : bool)
| VNumber (n : Z)
| VString (s : string)
| VCss (c : CssClass)
| VArray (xs : list Value)
| VObject (fields : list (string * Value))
| VFunction (h : Handler).

(** JavaScript truthiness, for the values that reach [||]. *)
Definition truthy (x : Value) : bool :=
  match x with
  | VUndefined | VNull => false
  | VBool b => b
  | VNumber n => negb (n =? 0)
  | VString s => negb (s =? "")%string
  | VCss _ | VArray _ | VObject _ | VFunction _ => true
  end.

(** [x || undefined] *)
Definition or_undefined (x : Value) : Value :=
  if truthy x then x else VUndefined.

(** Truthiness of an optional boolean ([boolean | undefined]). *)
Definition is_true (b : option bool) : bool :=
  match b with
  | Some true => true
  | _ => false
  end.

(** [!s] for an optional string: undefined and the empty string are falsy. *)
Definition not_string (s : option string) : bool :=
  match s with
  | None => true
  | Some s => (s =? "")%string
  end.

(** A destructuring default [x = d]: it applies to [undefined] only. *)
Definition default {A : Type} (d : A) (x : option A) : A :=
  match x with
  | Some a => a
  | None => d
  end.

(** ** The virtual tree *)

Inductive WidgetCtor : Type :=
| GlobalEvent
| Icon.

Inductive DNode : Type :=
| v (tag : string) (props : list (string * Value)) (childs : list DNode)
| w (ctor : WidgetCtor) (props : list (string * Value))
| text (s : string)
| null.

(** ** Properties and instance *)

Inductive RoleType : Type :=
| dialog
| alertdialog.

Definition role_string (r : RoleType) : string :=
  match r with
  | dialog => "dialog"
  | alertdialog => "alertdialog"
  end.

(** A function supplied by the caller; it is opaque to the widget.  All
    the widget can see of a call is whether it returns ([Fn]) or raises
    ([Raising]); the value returned is not used. *)
Inductive Callback : Type :=
| Fn (name : string)
| Raising (name : string).

Definition raises (f : Callback) : bool :=
  match f with
  | Fn _ => false
  | Raising _ => true
  end.

(** Whether [f && f()] raises. *)
Definition raises_opt (f : option Callback) : bool :=
  match f with
  | Some g => raises g
  | None => false
  end.

Record DialogProperties : Type := {
  aria : option (list (string * option string));
  closeable : option bool;
  closeText : option string;
  enterAnimation : option string;
  exitAnimation : option string;
  modal : option bool;
  onOpen : option Callback;
  onRequestClose : option Callback;
  open : option bool;
  role : option RoleType;
  title : option string;
  underlay : option bool;
  theme : Value;
  classes : Value
}.

Record DialogBase : Type := {
  properties : DialogProperties;
  children : list DNode;
  _titleId : string;
  _wasOpen : option bool;
  _callFocus : bool;
  _initialFocusSet : bool
}.

(** The instance as the constructor leaves it: [_wasOpen] is undefined,
    both flags are false, [_titleId] is the fresh [uuid()]. *)
Definition new_DialogBase (p : DialogProperties) (ch : list DNode)
    (id : string) : DialogBase :=
  {| properties := p; children := ch; _titleId := id;
     _wasOpen := None; _callFocus := false; _initialFocusSet := false |}.

Definition with_callFocus (b : bool) (this : DialogBase) : DialogBase :=
  {| properties := properties this; children := children this;
     _titleId := _titleId this; _wasOpen := _wasOpen this;
     _callFocus := b; _initialFocusSet := _initialFocusSet this |}.

Definition with_initialFocusSet (b : bool) (this : DialogBase) : DialogBase :=
  {| properties := properties this; children := children this;
     _titleId := _titleId this; _wasOpen := _wasOpen this;
     _callFocus := _callFocus this; _initialFocusSet := b |}.

Definition with_wasOpen (o : option bool) (this : DialogBase) : DialogBase :=
  {| properties := properties this; children := children this;
     _titleId := _titleId this; _wasOpen := o;
     _callFocus := _callFocus this; _initialFocusSet := _initialFocusSet this |}.

(** The framework sets properties and children before each render. *)
Definition setProperties (p : DialogProperties) (ch : list DNode)
    (this : DialogBase) : DialogBase :=
  {| properties := p; children := ch;
     _titleId := _titleId this; _wasOpen := _wasOpen this;
     _callFocus := _callFocus this; _initialFocusSet := _initialFocusSet this |}.

(** ** The host framework *)

(** What [this.meta(Focus).get(key)] returns. *)
Record FocusResults : Type := {
  active : bool;
  containsFocus : bool
}.

(** The services the mixins give the widget during one render pass or
    one event dispatch: the focus query, the theme resolution and the
    localized messages of the common bundle.  They are the framework's
    own and are taken to return; only the caller's callbacks may
    raise. *)
Record Host : Type := {
  meta_Focus_get : string -> FocusResults;
  this_theme : option CssClass -> Value;
  messages_close : string
}.

(** DOM events, as far as the handlers look at them. *)
Record KeyboardEvent : Type := {
  which : Z
}.

Inductive MouseEvent : Type :=
| click.

Inductive DomEvent : Type :=
| Mouse (e : MouseEvent)
| Keyboard (e : KeyboardEvent).

(** What a method does to the world outside the instance. *)
Inductive Effect : Type :=
| Focus_get (key : string)
| Focus_set (key : string)
| Call_onOpen (f : Callback)
| Call_onRequestClose (f : Callback)
| StopPropagation (e : DomEvent).

(** ** The monad of methods *)

(** How a method ends: it returns a value, or an exception raised by a
    callback leaves it. *)
Inductive Outcome (A : Type) : Type :=
| Returned (a : A)
| Raised.

Arguments Returned {A} a.
Arguments Raised {A}.

Definition M (A : Type) : Type :=
  Host -> DialogBase -> Outcome A * DialogBase * list Effect.

Definition ret {A : Type} (a : A) : M A :=
  fun _ this => (Returned a, this, []).

(** Sequencing: when the first part raises, the rest is not run; the
    instance and the effects up to there stay. *)
Definition bind {A B : Type} (m : M A) (k : A -> M B) : M B :=
  fun host this =>
    let '(o, this1, t1) := m host this in
    match o with
    | Returned a =>
        let '(b, this2, t2) := k a host this1 in
        (b, this2, t1 ++ t2)
    | Raised => (Raised, this1, t1)
    end.

Definition raise {A : Type} : M A :=
  fun _ this => (Raised, this, []).

Definition get : M DialogBase :=
  fun _ this => (Returned this, this, []).

Definition ask : M Host :=
  fun host this => (Returned host, this, []).

Definition modify (f : DialogBase -> DialogBase) : M unit :=
  fun _ this => (Returned tt, f this, []).

Definition emit (e : Effect) : M unit :=
  fun _ this => (Returned tt, this, [e]).

Definition when (b : bool) (m : M unit) : M unit :=
  if b then m else ret tt.

Declare Scope method_scope.
Delimit Scope method_scope with method.
Notation "x <- c ;; k" := (bind c (fun x => k))
  (at level 61, c at next level, right associativity) : method_scope.
Notation "c ;; k" := (bind c (fun _ => k))
  (at level 61, right associativity) : method_scope.
Open Scope method_scope.

Definition result {A : Type}
    (r : Outcome A * DialogBase * list Effect) : Outcome A :=
  fst (fst r).
Definition instance {A : Type}
    (r : Outcome A * DialogBase * list Effect) : DialogBase :=
  snd (fst r).
Definition effects {A : Type}
    (r : Outcome A * DialogBase * list Effect) : list Effect :=
  snd r.

(** [this.meta(Focus).get(key)] and [this.meta(Focus).set(key)] *)
Definition Focus_get_ (key : string) : M FocusResults :=
  host <- ask ;;
  emit (Focus_get key) ;;
  ret (meta_Focus_get host key).

Definition Focus_set_ (key : string) : M unit :=
  emit (Focus_set key).

(** A call [g()] of a callback of the caller: the call is made, and it
    returns or raises. *)
Definition call (mk : Callback -> Effect) (g : Callback) : M unit :=
  emit (mk g) ;;
  if raises g then raise else ret tt.

(** [f && f()] for an optional callback *)
Definition call_if_present (mk : Callback -> Effect) (f : option Callback) : M unit :=
  match f with
  | Some g => call mk g
  | None => ret tt
  end.

Section Dialog.

(** Imported from [../common/util], which is not part of the sources at
    hand: the key code [Keys.Escape] and [formatAriaProperties]. *)
Variable Keys_Escape : Z.
Variable formatAriaProperties :
  list (string * option string) -> list (string * Value).

(** ** Methods of [DialogBase] *)

Definition _close : M unit :=
  this <- get ;;
  let closeable := default true (closeable (properties this)) in
  let onRequestClose := onRequestClose (properties this) in
  when closeable (call_if_present Call_onRequestClose onRequestClose).

Definition _onCloseClick (event : MouseEvent) : M unit :=
  emit (StopPropagation (Mouse event)) ;;
  _close.

Definition _checkFocus : M unit :=
  this <- get ;;
  let modal := modal (properties this) in
  let open := open (properties this) in
  (* only handle focus for open dialog *)
  if negb (is_true open) then ret tt
  else
    dialogFocus <- Focus_get_ "main" ;;
    when (containsFocus dialogFocus)
      (modify (with_callFocus false) ;;
       modify (with_initialFocusSet true)) ;;
    (* handle if the dialog is open and loses focus *)
    this <- get ;;
    when (_initialFocusSet this && negb (containsFocus dialogFocus))
      (if is_true modal then modify (with_callFocus true) else _close) ;;
    this <- get ;;
    when (_callFocus this) (Focus_set_ "main").

Definition _onUnderlayClick (event : MouseEvent) : M unit :=
  emit (StopPropagation (Mouse event)) ;;
  this <- get ;;
  when (negb (is_true (modal (properties this)))) _close.

Definition _onKeyUp (event : KeyboardEvent) : M unit :=
  emit (StopPropagation (Keyboard event)) ;;
  when (which event =? Keys_Escape) _close.

Definition _onOpen : M unit :=
  this <- get ;;
  let onOpen := onOpen (properties this) in
  modify (with_callFocus true) ;;
  modify (with_initialFocusSet false) ;;
  call_if_present Call_onOpen onOpen.

Definition getContent (host : Host) (this : DialogBase) : DNode :=
  v "div"
    [ ("classes", this_theme host (Some css_content));
      ("key", VString "content") ]
    (children this).

Definition renderTitle (this : DialogBase) : DNode :=
  let title := default "" (title (properties this)) in
  v "div" [ ("id", VString (_titleId this)) ] [ text title ].

Definition renderUnderlay (host : Host) (this : DialogBase) : DNode :=
  let underlay := underlay (properties this) in
  v "div"
    [ ("classes",
       VArray [ this_theme host
                  (if is_true underlay then Some css_underlayVisible else None);
                VCss fixedCss_underlay ]);
      ("enterAnimation", or_undefined (this_theme host (Some css_underlayEnter)));
      ("exitAnimation", or_undefined (this_theme host (Some css_underlayExit)));
      ("key", VString "underlay");
      ("onclick", VFunction this_onUnderlayClick) ]
    [].

(** The text of the close button: [closeText], or when that is falsy the
    template [`${messages.close} ${title}`]. *)
Definition closeText_of (host : Host) (p : DialogProperties) : string :=
  let title := default "" (title p) in
  if not_string (closeText p)
  then (messages_close host ++ " " ++ title)%string
  else default "" (closeText p).

Definition animation (host : Host) (a : option string) (c : CssClass) : Value :=
  match a with
  | Some s => VString s
  | None => or_undefined (this_theme host (Some c))
  end.

Definition render : M DNode :=
  this <- get ;;
  host <- ask ;;
  let p := properties this in
  let aria := default [] (aria p) in
  let closeable := default true (closeable p) in
  let enterAnimation := animation host (enterAnimation p) css_enter in
  let exitAnimation := animation host (exitAnimation p) css_exit in
  let open := default false (open p) in
  let role := default dialog (role p) in
  when (open && negb (is_true (_wasOpen this))) _onOpen ;;
  modify (with_wasOpen (Some open)) ;;
  _checkFocus ;;
  let closeText := closeText_of host p in
  this <- get ;;
  ret (v "div"
         [ ("classes", this_theme host (Some css_root)) ]
         (if open then
            [ w GlobalEvent
                [ ("key", VString "global");
                  ("document", VObject [ ("keyup", VFunction this_onKeyUp) ]) ];
              renderUnderlay host this;
              v "div"
                (formatAriaProperties aria ++
                 [ ("aria-labelledby", VString (_titleId this));
                   ("classes", this_theme host (Some css_main));
                   ("enterAnimation", enterAnimation);
                   ("exitAnimation", exitAnimation);
                   ("key", VString "main");
                   ("role", VString (role_string role));
                   ("tabIndex", VNumber (-1)) ])
                [ v "div"
                    [ ("classes", this_theme host (Some css_title));
                      ("key", VString "title") ]
                    [ renderTitle this;
                      if closeable then
                        v "button"
                          [ ("classes", this_theme host (Some css_close));
                            ("type", VString "button");
                            ("onclick", VFunction this_onCloseClick) ]
                          [ text closeText;
                            w Icon
                              [ ("type", VString "closeIcon");
                                ("theme", theme p);
                                ("classes", classes p) ] ]
                      else null ];
                  getContent host this ] ]
          else [])).

End Dialog.

(** ** Sequences of render passes and event dispatches *)

(** What the framework does with an instance: it sets the properties and
    children and renders, or it delivers a DOM event to one of the
    listeners that [render] put in the tree. *)
Inductive Step : Type :=
| Render (host : Host) (p : DialogProperties) (ch : list DNode)
| CloseClick (host : Host) (e : MouseEvent)
| UnderlayClick (host : Host) (e : MouseEvent)
| KeyUp (host : Host) (e : KeyboardEvent).

Section Run.

Variable Keys_Escape : Z.
Variable formatAriaProperties :
  list (string * option string) -> list (string * Value).

Definition step (s : Step) (this : DialogBase) : DialogBase * list Effect :=
  match s with
  | Render host p ch =>
      let r := render formatAriaProperties host (setProperties p ch this) in
      (instance r, effects r)
  | CloseClick host e =>
      let r := _onCloseClick e host this in (instance r, effects r)
  | UnderlayClick host e =>
      let r := _onUnderlayClick e host this in (instance r, effects r)
  | KeyUp host e =>
      let r := _onKeyUp Keys_Escape e host this in (instance r, effects r)
  end.

Fixpoint run (steps : list Step) (this : DialogBase) : DialogBase * list Effect :=
  match steps with
  | [] => (this, [])
  | s :: rest =>
      let '(this1, t1) := step s this in
      let '(this2, t2) := run rest this1 in
      (this2, t1 ++ t2)
  end.

End Run.

(** ** Observations on effects and trees *)

Definition is_Call_onOpen (e : Effect) : bool :=
  match e with
  | Call_onOpen _ => true
  | _ => false
  end.

Definition is_Call_onRequestClose (e : Effect) : bool :=
  match e with
  | Call_onRequestClose _ => true
  | _ => false
  end.

(** How many times the caller's [onOpen] was invoked. *)
Definition count_onOpen (t : list Effect) : nat :=
  length (filter is_Call_onOpen t).

(** A step that is a render pass whose [open] is [b], or an event. *)
Definition open_held (b : bool) (s : Step) : Prop :=
  match s with
  | Render _ p _ => default false (open p) = b
  | _ => True
  end.

(** A render pass in which the focus query answers that the main region
    does not contain focus. *)
Definition unfocused_render (s : Step) : Prop :=
  match s with
  | Render host _ _ => containsFocus (meta_Focus_get host "main") = false
  | _ => False
  end.

Definition child (i : nat) (n : DNode) : option DNode :=
  match n with
  | v _ _ cs => nth_error cs i
  | _ => None
  end.

(** The close control in the tree [render] returns: the second child of
    the title bar, which is the first child of the main region, which is
    the third child of the root. *)
Definition closeControl (root : DNode) : option DNode :=
  match child 2 root with
  | Some main =>
      match child 0 main with
      | Some titleBar => child 1 titleBar
      | None => None
      end
  | None => None
  end.

(** The text a node shows: its leading text child. *)
Definition accessibleText (n : DNode) : option string :=
  match child 0 n with
  | Some (text s) => Some s
  | _ => None
  end.

Definition closeControlText (root : DNode) : option string :=
  match closeControl root with
  | Some b => accessibleText b
  | None => None
  end.

Definition with_closeText (c : option string) (p : DialogProperties) : DialogProperties :=
  {| aria := aria p; closeable := closeable p; closeText := c;
     enterAnimation := enterAnimation p; exitAnimation := exitAnimation p;
     modal := modal p; onOpen := onOpen p; onRequestClose := onRequestClose p;
     open := open p; role := role p; title := title p; underlay := underlay p;
     theme := theme p; classes := classes p |}.

(** [open && !this._wasOpen]: the render pass is an open transition. *)
Definition open_edge (this : DialogBase) : bool :=
  default false (open (properties this)) && negb (is_true (_wasOpen this)).

(** The instance on which the focus check of a pass runs: the lifecycle
    step has run [_onOpen] at an open transition and stored [open]. *)
Definition at_check (host : Host) (this : DialogBase) : DialogBase :=
  with_wasOpen (Some (default false (open (properties this))))
    (instance (when (open_edge this) _onOpen host this)).

(** The value of [closeable] a step leaves in the instance. *)
Definition closeable_after (s : Step) (this : DialogBase) : option bool :=
  match s with
  | Render _ p _ => closeable p
  | _ => closeable (properties this)
  end.

(** Every render pass of the sequence comes with [closeable] false. *)
Definition not_closeable (s : Step) : Prop :=
  match s with
  | Render _ p _ => closeable p = Some false
  | _ => True
  end.

(** How a method that returns nothing ends. *)
Definition ended (raised : bool) : Outcome unit :=
  if raised then Raised else Returned tt.

(** A method ended by an exception. *)
Definition raised {A : Type}
    (r : Outcome A * DialogBase * list Effect) : bool :=
  match result r with
  | Raised => true
  | Returned _ => false
  end.

(** [_close] raises: the callback is called and it raises. *)
Definition close_raises (this : DialogBase) : bool :=
  default true (closeable (properties this)) &&
  raises_opt (onRequestClose (properties this)).

(** The lifecycle step of [render] raises: the pass is an open
    transition and [onOpen] raises. *)
Definition open_raises (this : DialogBase) : bool :=
  open_edge this && raises_opt (onOpen (properties this)).

(** A render pass whose [onOpen], if any, returns; or an event. *)
Definition onOpen_returns (s : Step) : Prop :=
  match s with
  | Render _ p _ => raises_opt (onOpen p) = false
  | _ => True
  end.

(** Both callbacks of the instance, as far as supplied, return. *)
Definition callbacks_return (this : DialogBase) : Prop :=
  raises_opt (onOpen (properties this)) = false /\
  raises_opt (onRequestClose (properties this)) = false.

(** ** Observations used beyond the specified properties *)

(** Reading a key of an object literal: of several bindings of one key
    (a spread followed by explicit keys) the last one written wins. *)
Fixpoint prop_lookup (key : string) (props : list (string * Value)) : option Value :=
  match props with
  | [] => None
  | (k, x) :: rest =>
      match prop_lookup key rest with
      | Some y => Some y
      | None => if (k =? key)%string then Some x else None
      end
  end.

Definition node_props (n : DNode) : list (string * Value) :=
  match n with
  | v _ ps _ => ps
  | w _ ps => ps
  | _ => []
  end.

Definition node_children (n : DNode) : list DNode :=
  match n with
  | v _ _ cs => cs
  | _ => []
  end.

Definition is_Render (s : Step) : bool :=
  match s with
  | Render _ _ _ => true
  | _ => false
  end.

Definition is_Focus_get (e : Effect) : bool :=
  match e with
  | Focus_get _ => true
  | _ => false
  end.

Definition is_StopPropagation (e : Effect) : bool :=
  match e with
  | StopPropagation _ => true
  | _ => false
  end.

(** How many times the caller's [onRequestClose] was invoked. *)
Definition count_onRequestClose (t : list Effect) : nat :=
  length (filter is_Call_onRequestClose t).

(** While the dialog has been open, it still has to take focus or it has
    held focus already. *)
Definition trap_armed (this : DialogBase) : Prop :=
  is_true (_wasOpen this) = true ->
  _callFocus this = true \/ _initialFocusSet this = true.

(** A render pass of a modal dialog, or an event. *)
Definition modal_render (s : Step) : Prop :=
  match s with
  | Render _ p _ => is_true (modal p) = true
  | _ => False
  end.

(** ** Sample inputs *)

Definition sample_host (inside : bool) : Host :=
  {| meta_Focus_get := fun _ => {| active := false; containsFocus := inside |};
     this_theme := fun c => match c with Some _ => VString "themed" | None => VNull end;
     messages_close := "close" |}.

Definition sample_properties (o m c : option bool) : DialogProperties :=
  {| aria := None; closeable := c; closeText := None;
     enterAnimation := None; exitAnimation := None;
     modal := m; onOpen := Some (Fn "opened");
     onRequestClose := Some (Fn "requestClose");
     open := o; role := None; title := Some "Settings"; underlay := None;
     theme := VUndefined; classes := VUndefined |}.

(** The same properties with callbacks that raise. *)
Definition sample_raising (o m c : option bool) : DialogProperties :=
  {| aria := None; closeable := c; closeText := None;
     enterAnimation := None; exitAnimation := None;
     modal := m; onOpen := Some (Raising "opened");
     onRequestClose := Some (Raising "requestClose");
     open := o; role := None; title := Some "Settings"; underlay := None;
     theme := VUndefined; classes := VUndefined |}.

Definition sample_aria (a : list (string * option string)) : list (string * Value) :=
  map (fun kv => (("aria-" ++ fst kv)%string,
                  match snd kv with Some s => VString s | None => VNull end)) a.

(** An instance that has been open for a while and has held focus. *)
Definition sample_focused (p : DialogProperties) : DialogBase :=
  {| properties := p; children := [text "body"]; _titleId := "id-1";
     _wasOpen := Some true; _callFocus := false; _initialFocusSet := true |}.

Definition sample_new (p : DialogProperties) : DialogBase :=
  new_DialogBase p [text "body"] "id-1".

(** ** Closed forms of the methods *)

(** [_close] leaves the instance alone; it calls [onRequestClose] when
    [closeable] is not false and the callback is there, and it raises
    when that call raises. *)
Lemma _close_run (host : Host) (this : DialogBase) :
  _close host this =
  (ended (close_raises this), this, effects (_close host this)).
Proof.
  unfold _close, close_raises, bind, get, when, call_if_present, call, effects.
  destruct (default true (closeable (properties this)));
    [destruct (onRequestClose (properties this)) as [[n|n]|]|]; reflexivity.
Qed.

Lemma _close_result (host : Host) (this : DialogBase) :
  result (_close host this) = ended (close_raises this).
Proof. rewrite _close_run. reflexivity. Qed.

Lemma _close_effects (host : Host) (this : DialogBase) :
  effects (_close host this) =
  if default true (closeable (properties this))
  then match onRequestClose (properties this) with
       | Some f => [Call_onRequestClose f]
       | None => []
       end
  else [].
Proof.
  unfold _close, bind, get, when, call_if_present, call, effects.
  destruct (default true (closeable (properties this)));
    [destruct (onRequestClose (properties this)) as [[n|n]|]|]; reflexivity.
Qed.

(** The effects of a close request depend on the properties only. *)
Lemma _close_effects_properties (host host' : Host) (this this' : DialogBase) :
  properties this = properties this' ->
  effects (_close host this) = effects (_close host' this').
Proof. intros E. rewrite !_close_effects, E. reflexivity. Qed.

Lemma _onOpen_run (host : Host) (this : DialogBase) :
  _onOpen host this =
  (ended (raises_opt (onOpen (properties this))),
   with_initialFocusSet false (with_callFocus true this),
   match onOpen (properties this) with
   | Some f => [Call_onOpen f]
   | None => []
   end).
Proof.
  unfold _onOpen, bind, get, modify, call_if_present, call.
  destruct (onOpen (properties this)) as [[n|n]|]; reflexivity.
Qed.

Lemma when_onOpen_run (b : bool) (host : Host) (this : DialogBase) :
  when b _onOpen host this =
  (ended (b && raises_opt (onOpen (properties this))),
   if b then with_initialFocusSet false (with_callFocus true this) else this,
   if b then match onOpen (properties this) with
             | Some f => [Call_onOpen f]
             | None => []
             end
   else []).
Proof. destruct b; cbn [when andb]; [apply _onOpen_run|reflexivity]. Qed.

(** The ways through [_checkFocus] of an open dialog, and the early
    return of a closed one.  When the close request of a non-modal
    dialog raises, the check ends there and focus is not set. *)
Lemma _checkFocus_run (host : Host) (this : DialogBase) :
  _checkFocus host this =
  if negb (is_true (open (properties this))) then (Returned tt, this, [])
  else if containsFocus (meta_Focus_get host "main")
  then (Returned tt, with_initialFocusSet true (with_callFocus false this),
        [Focus_get "main"])
  else if _initialFocusSet this
  then if is_true (modal (properties this))
       then (Returned tt, with_callFocus true this,
             [Focus_get "main"; Focus_set "main"])
       else (ended (close_raises this), this,
             Focus_get "main" :: effects (_close host this) ++
             (if close_raises this then []
              else if _callFocus this then [Focus_set "main"] else []))
  else (Returned tt, this,
        Focus_get "main" :: (if _callFocus this then [Focus_set "main"] else [])).
Proof.
  unfold _checkFocus, bind at 1. cbn [get].
  destruct (negb (is_true (open (properties this)))); [reflexivity|].
  unfold bind, Focus_get_, Focus_set_, ask, emit, ret, get, when, modify.
  cbn -[_close].
  destruct (containsFocus (meta_Focus_get host "main")); cbn -[_close];
    [reflexivity|].
  destruct (_initialFocusSet this) eqn:Ei; cbn -[_close].
  - destruct (is_true (modal (properties this))); cbn -[_close]; [reflexivity|].
    rewrite (_close_run host this). cbn -[_close].
    destruct (close_raises this); cbn -[_close]; [rewrite app_nil_r; reflexivity|].
    destruct (_callFocus this); cbn -[_close]; rewrite ?app_nil_r; reflexivity.
  - destruct (_callFocus this); reflexivity.
Qed.

Lemma at_check_fields (host : Host) (this : DialogBase) :
  properties (at_check host this) = properties this /\
  children (at_check host this) = children this /\
  _titleId (at_check host this) = _titleId this /\
  _wasOpen (at_check host this) =
    Some (default false (open (properties this))) /\
  _callFocus (at_check host this) =
    (if open_edge this then true else _callFocus this) /\
  _initialFocusSet (at_check host this) =
    (if open_edge this then false else _initialFocusSet this).
Proof.
  unfold at_check. rewrite when_onOpen_run. cbn [instance fst snd].
  destruct (open_edge this); repeat split; reflexivity.
Qed.

(** [render] is the lifecycle step, then the focus check, then the tree;
    only the first two touch the instance or the outside world.  When
    [onOpen] raises the pass ends in the lifecycle step, before
    [_wasOpen] is stored. *)
Lemma render_at_check fmt (host : Host) (this : DialogBase) :
  instance (render fmt host this) =
    (if open_raises this
     then with_initialFocusSet false (with_callFocus true this)
     else instance (_checkFocus host (at_check host this))) /\
  effects (render fmt host this) =
    (if open_edge this
     then match onOpen (properties this) with
          | Some f => [Call_onOpen f]
          | None => []
          end
     else []) ++
    (if open_raises this then []
     else effects (_checkFocus host (at_check host this))).
Proof.
  unfold render, open_raises, at_check, open_edge, bind.
  cbn -[_checkFocus _onOpen when].
  rewrite when_onOpen_run.
  destruct (default false (open (properties this)) &&
            negb (is_true (_wasOpen this)));
    cbn -[_checkFocus].
  - destruct (raises_opt (onOpen (properties this))); cbn -[_checkFocus].
    + rewrite app_nil_r. split; reflexivity.
    + destruct (_checkFocus host _) as [[[u|] this2] t2];
        cbn; rewrite ?app_nil_r; split; reflexivity.
  - destruct (_checkFocus host _) as [[[u|] this2] t2];
      cbn; rewrite ?app_nil_r; split; reflexivity.
Qed.

(** How a pass ends: it raises when [onOpen] raises at the open
    transition or when the focus check raises, and returns a tree
    otherwise. *)
Lemma render_result fmt (host : Host) (this : DialogBase) :
  if open_raises this then result (render fmt host this) = Raised
  else match result (_checkFocus host (at_check host this)) with
       | Raised => result (render fmt host this) = Raised
       | Returned _ => exists root, result (render fmt host this) = Returned root
       end.
Proof.
  unfold render, open_raises, at_check, open_edge, bind.
  cbn -[_checkFocus _onOpen when].
  rewrite when_onOpen_run.
  destruct (default false (open (properties this)) &&
            negb (is_true (_wasOpen this)));
    cbn -[_checkFocus].
  - destruct (raises_opt (onOpen (properties this))); cbn -[_checkFocus];
      [reflexivity|].
    destruct (_checkFocus host _) as [[[u|] this2] t2]; cbn;
      [eexists; reflexivity|reflexivity].
  - destruct (_checkFocus host _) as [[[u|] this2] t2]; cbn;
      [eexists; reflexivity|reflexivity].
Qed.

Lemma open_raises_no_edge (this : DialogBase) :
  open_edge this = false -> open_raises this = false.
Proof. intros E. unfold open_raises. rewrite E. reflexivity. Qed.

(** A pass that is no open transition: the check runs on the instance
    with [_wasOpen] updated. *)
Lemma render_no_edge fmt (host : Host) (this : DialogBase) :
  open_edge this = false ->
  let this1 :=
    with_wasOpen (Some (default false (open (properties this)))) this in
  instance (render fmt host this) = instance (_checkFocus host this1) /\
  effects (render fmt host this) = effects (_checkFocus host this1).
Proof.
  intros E this1. destruct (render_at_check fmt host this) as [Hi He].
  rewrite Hi, He, (open_raises_no_edge this E), E.
  unfold at_check. rewrite E. split; reflexivity.
Qed.

Lemma is_true_open_default (o : option bool) :
  default false o = is_true o.
Proof. destruct o as [[|]|]; reflexivity. Qed.

(** A pass that is an open transition, with an [onOpen] that returns:
    [_onOpen] runs first, then the check. *)
Lemma render_edge fmt (host : Host) (this : DialogBase) :
  open_edge this = true ->
  raises_opt (onOpen (properties this)) = false ->
  let this1 :=
    with_wasOpen (Some true)
      (with_initialFocusSet false (with_callFocus true this)) in
  instance (render fmt host this) = instance (_checkFocus host this1) /\
  effects (render fmt host this) =
    effects (_onOpen host this) ++ effects (_checkFocus host this1).
Proof.
  intros E Hr this1. destruct (render_at_check fmt host this) as [Hi He].
  rewrite Hi, He. unfold open_raises, at_check. rewrite E, Hr.
  cbn [andb when]. rewrite _onOpen_run. cbn [instance effects fst snd].
  unfold open_edge in E. apply andb_true_iff in E. destruct E as [Eo _].
  rewrite Eo. split; reflexivity.
Qed.

(** A pass that is an open transition, with an [onOpen] that raises:
    the pass ends with that call, after the flags were set and before
    [_wasOpen] is stored. *)
Lemma render_edge_raises fmt (host : Host) (this : DialogBase) :
  open_edge this = true ->
  raises_opt (onOpen (properties this)) = true ->
  render fmt host this =
  (Raised, with_initialFocusSet false (with_callFocus true this),
   effects (_onOpen host this)).
Proof.
  intros E Hr.
  pose proof (render_result fmt host this) as Hres.
  destruct (render_at_check fmt host this) as [Hi He].
  unfold open_raises in *. rewrite E, Hr in *. cbn [andb] in *.
  rewrite app_nil_r in He. rewrite _onOpen_run. cbn [effects snd].
  destruct (render fmt host this) as [[o th] t].
  cbn [result instance effects fst snd] in *. subst. reflexivity.
Qed.

Lemma _onCloseClick_run (e : MouseEvent) (host : Host) (this : DialogBase) :
  _onCloseClick e host this =
  (ended (close_raises this), this,
   StopPropagation (Mouse e) :: effects (_close host this)).
Proof.
  unfold _onCloseClick, bind, emit. rewrite (_close_run host this).
  destruct (close_raises this); reflexivity.
Qed.

Lemma _onUnderlayClick_run (e : MouseEvent) (host : Host) (this : DialogBase) :
  _onUnderlayClick e host this =
  (ended (negb (is_true (modal (properties this))) && close_raises this), this,
   StopPropagation (Mouse e) ::
   (if is_true (modal (properties this)) then [] else effects (_close host this))).
Proof.
  unfold _onUnderlayClick, bind, emit, get, when.
  destruct (is_true (modal (properties this))); cbn -[_close]; [reflexivity|].
  rewrite (_close_run host this). destruct (close_raises this); reflexivity.
Qed.

Lemma _onKeyUp_run esc (e : KeyboardEvent) (host : Host) (this : DialogBase) :
  _onKeyUp esc e host this =
  (ended ((which e =? esc) && close_raises this), this,
   StopPropagation (Keyboard e) ::
   (if which e =? esc then effects (_close host this) else [])).
Proof.
  unfold _onKeyUp, bind, emit, when.
  destruct (which e =? esc); cbn -[_close]; [|reflexivity].
  rewrite (_close_run host this). destruct (close_raises this); reflexivity.
Qed.

(** A close request calls nothing but [onRequestClose]. *)
Lemma _close_effects_cases (host : Host) (this : DialogBase) :
  effects (_close host this) = [] \/
  exists f, onRequestClose (properties this) = Some f /\
            closeable (properties this) <> Some false /\
            effects (_close host this) = [Call_onRequestClose f].
Proof.
  rewrite _close_effects.
  destruct (closeable (properties this)) as [[|]|]; cbn; auto;
    destruct (onRequestClose (properties this)) as [f|]; auto;
    right; exists f; repeat split; congruence.
Qed.

Lemma _close_guarded (host : Host) (this : DialogBase) :
  closeable (properties this) = Some false ->
  effects (_close host this) = [] /\ close_raises this = false.
Proof.
  intros E. rewrite _close_effects. unfold close_raises. rewrite E.
  split; reflexivity.
Qed.

Lemma _close_calls (host : Host) (this : DialogBase) (f : Callback) :
  closeable (properties this) <> Some false ->
  onRequestClose (properties this) = Some f ->
  effects (_close host this) = [Call_onRequestClose f].
Proof.
  intros Hc Hf. rewrite _close_effects, Hf.
  destruct (closeable (properties this)) as [[|]|]; cbn; congruence.
Qed.

(** A pass of an open dialog that was open before is no open transition. *)
Lemma open_edge_was_open (this : DialogBase) :
  is_true (_wasOpen this) = true -> open_edge this = false.
Proof. intros E. unfold open_edge. rewrite E. apply andb_false_r. Qed.

Lemma open_edge_closed (this : DialogBase) :
  is_true (open (properties this)) = false -> open_edge this = false.
Proof.
  intros E. unfold open_edge. rewrite is_true_open_default, E. reflexivity.
Qed.

(** * The specified properties *)

(** C1. In a render pass with [modal] falsy and [open] true, when the
    flag [_initialFocusSet] is up (focus has been seen inside the main
    region since the open transition) and the focus query says the main
    region does not contain focus, the focus check issues a close
    request: it runs [_close], which invokes [onRequestClose] unless
    [closeable] is false.  Stated for [_checkFocus], and for the whole
    [render] of a pass that is not itself the open transition.  (Focus
    is set afterwards when [_callFocus] is up, unless the callback
    raised.) *)
Theorem nonmodal_focus_loss_requests_close
    fmt (host : Host) (this : DialogBase) :
  is_true (open (properties this)) = true ->
  is_true (modal (properties this)) = false ->
  _initialFocusSet this = true ->
  containsFocus (meta_Focus_get host "main") = false ->
  _checkFocus host this =
    (result (_close host this), this,
     Focus_get "main" :: effects (_close host this) ++
     (if close_raises this then []
      else if _callFocus this then [Focus_set "main"] else []))
  /\ (forall f, closeable (properties this) <> Some false ->
                onRequestClose (properties this) = Some f ->
                In (Call_onRequestClose f) (effects (_checkFocus host this)))
  /\ (is_true (_wasOpen this) = true ->
      instance (render fmt host this) = with_wasOpen (Some true) this /\
      effects (render fmt host this) =
        Focus_get "main" :: effects (_close host this) ++
        (if close_raises this then []
         else if _callFocus this then [Focus_set "main"] else []) /\
      forall f, closeable (properties this) <> Some false ->
                onRequestClose (properties this) = Some f ->
                In (Call_onRequestClose f) (effects (render fmt host this))).
Proof.
  intros Ho Hm Hi Hf.
  assert (Hc : _checkFocus host this =
    (result (_close host this), this,
     Focus_get "main" :: effects (_close host this) ++
     (if close_raises this then []
      else if _callFocus this then [Focus_set "main"] else []))).
  { rewrite _checkFocus_run, Ho, Hf, Hi, Hm, _close_result. reflexivity. }
  split; [exact Hc|]. split.
  - intros f Hcl Hrc. rewrite Hc. cbn [effects snd].
    rewrite (_close_calls host this f Hcl Hrc). cbn. auto.
  - intros Hw.
    destruct (render_no_edge fmt host this (open_edge_was_open this Hw))
      as [Ei Ee].
    rewrite is_true_open_default, Ho in Ei, Ee.
    assert (Hc' : _checkFocus host (with_wasOpen (Some true) this) =
      (result (_close host this), with_wasOpen (Some true) this,
       Focus_get "main" :: effects (_close host this) ++
       (if close_raises this then []
        else if _callFocus this then [Focus_set "main"] else []))).
    { rewrite _checkFocus_run. cbn [with_wasOpen properties _initialFocusSet _callFocus].
      rewrite Ho, Hf, Hi, Hm. cbn [negb].
      rewrite (_close_effects_properties host host
                 (with_wasOpen (Some true) this) this eq_refl).
      rewrite _close_result. reflexivity. }
    rewrite Hc' in Ei, Ee. cbn [instance effects fst snd] in Ei, Ee.
    split; [exact Ei|]. split; [exact Ee|].
    intros f Hcl Hrc. rewrite Ee, (_close_calls host this f Hcl Hrc). cbn. auto.
Qed.

Lemma nonmodal_focus_loss_requests_close_witness :
  effects (render sample_aria (sample_host false)
             (sample_focused (sample_properties (Some true) None None))) =
    [Focus_get "main"; Call_onRequestClose (Fn "requestClose")]
  /\ In (Call_onRequestClose (Fn "requestClose"))
        (effects (_checkFocus (sample_host false)
                    (sample_focused (sample_properties (Some true) None None)))).
Proof.
  destruct (nonmodal_focus_loss_requests_close sample_aria (sample_host false)
              (sample_focused (sample_properties (Some true) None None))
              eq_refl eq_refl eq_refl eq_refl) as [_ [Hin H]].
  destruct (H eq_refl) as [_ [He _]].
  split.
  - rewrite He. reflexivity.
  - apply Hin; [discriminate|reflexivity].
Defined.

(** C2. In a render pass with [modal] true and [open] true, when the
    flag [_initialFocusSet] is up and the focus query says the main
    region does not contain focus, the focus check sets [_callFocus] and
    moves focus onto the main region in the same pass, and
    [onRequestClose] is not invoked. *)
Theorem modal_focus_loss_recaptures
    fmt (host : Host) (this : DialogBase) :
  is_true (open (properties this)) = true ->
  is_true (modal (properties this)) = true ->
  _initialFocusSet this = true ->
  containsFocus (meta_Focus_get host "main") = false ->
  _checkFocus host this =
    (Returned tt, with_callFocus true this,
     [Focus_get "main"; Focus_set "main"])
  /\ (is_true (_wasOpen this) = true ->
      instance (render fmt host this) =
        with_callFocus true (with_wasOpen (Some true) this) /\
      _callFocus (instance (render fmt host this)) = true /\
      effects (render fmt host this) = [Focus_get "main"; Focus_set "main"] /\
      forall f, ~ In (Call_onRequestClose f) (effects (render fmt host this))).
Proof.
  intros Ho Hm Hi Hf.
  split.
  - rewrite _checkFocus_run, Ho, Hf, Hi, Hm. reflexivity.
  - intros Hw.
    destruct (render_no_edge fmt host this (open_edge_was_open this Hw))
      as [Ei Ee].
    rewrite is_true_open_default, Ho in Ei, Ee.
    assert (Hc : _checkFocus host (with_wasOpen (Some true) this) =
      (Returned tt, with_callFocus true (with_wasOpen (Some true) this),
       [Focus_get "main"; Focus_set "main"])).
    { rewrite _checkFocus_run.
      cbn [with_wasOpen properties _initialFocusSet _callFocus].
      rewrite Ho, Hf, Hi, Hm. reflexivity. }
    rewrite Hc in Ei, Ee. cbn [instance effects fst snd] in Ei, Ee.
    rewrite Ei, Ee. repeat split.
    intros f [H|[H|[]]]; discriminate H.
Qed.

Lemma modal_focus_loss_recaptures_witness :
  effects (render sample_aria (sample_host false)
             (sample_focused (sample_properties (Some true) (Some true) None))) =
  [Focus_get "main"; Focus_set "main"].
Proof.
  destruct (modal_focus_loss_recaptures sample_aria (sample_host false)
              (sample_focused (sample_properties (Some true) (Some true) None))
              eq_refl eq_refl eq_refl eq_refl) as [_ H].
  destruct (H eq_refl) as [_ [_ [He _]]].
  exact He.
Defined.

(** ** The open transition *)

Lemma open_edge_iff (this : DialogBase) :
  open_edge this = true <->
  is_true (open (properties this)) = true /\
  (_wasOpen this = Some false \/ _wasOpen this = None).
Proof.
  unfold open_edge. rewrite is_true_open_default, andb_true_iff.
  destruct (_wasOpen this) as [[|]|]; cbn; intuition congruence.
Qed.

Lemma _close_no_onOpen (host : Host) (this : DialogBase) :
  filter is_Call_onOpen (effects (_close host this)) = [].
Proof.
  destruct (_close_effects_cases host this) as [E|[f [_ [_ E]]]];
    rewrite E; reflexivity.
Qed.

Lemma _checkFocus_no_onOpen (host : Host) (this : DialogBase) :
  filter is_Call_onOpen (effects (_checkFocus host this)) = [].
Proof.
  rewrite _checkFocus_run.
  destruct (negb (is_true (open (properties this)))); [reflexivity|].
  destruct (containsFocus (meta_Focus_get host "main")); [reflexivity|].
  destruct (_initialFocusSet this).
  - destruct (is_true (modal (properties this))); [reflexivity|].
    cbn [effects snd filter is_Call_onOpen].
    rewrite filter_app, _close_no_onOpen.
    destruct (close_raises this); [reflexivity|].
    destruct (_callFocus this); reflexivity.
  - destruct (_callFocus this); reflexivity.
Qed.

Lemma _checkFocus_wasOpen (host : Host) (this : DialogBase) :
  _wasOpen (instance (_checkFocus host this)) = _wasOpen this /\
  properties (instance (_checkFocus host this)) = properties this.
Proof.
  rewrite _checkFocus_run.
  destruct (negb (is_true (open (properties this)))); [split; reflexivity|].
  destruct (containsFocus (meta_Focus_get host "main")); [split; reflexivity|].
  destruct (_initialFocusSet this); [|split; reflexivity].
  destruct (is_true (modal (properties this))); split; reflexivity.
Qed.

(** A pass stores [open] in [_wasOpen], unless [onOpen] raised first. *)
Lemma render_wasOpen fmt (host : Host) (this : DialogBase) :
  _wasOpen (instance (render fmt host this)) =
  if open_raises this then _wasOpen this
  else Some (default false (open (properties this))).
Proof.
  destruct (render_at_check fmt host this) as [Hi _]. rewrite Hi.
  destruct (open_raises this); [reflexivity|].
  rewrite (proj1 (_checkFocus_wasOpen _ _)).
  apply (at_check_fields host this).
Qed.

Lemma render_onOpen_calls fmt (host : Host) (this : DialogBase) :
  filter is_Call_onOpen (effects (render fmt host this)) =
  if open_edge this
  then match onOpen (properties this) with
       | Some f => [Call_onOpen f]
       | None => []
       end
  else [].
Proof.
  destruct (render_at_check fmt host this) as [_ He]. rewrite He.
  rewrite filter_app.
  assert (H0 : filter is_Call_onOpen
                 (if open_raises this then []
                  else effects (_checkFocus host (at_check host this))) = []).
  { destruct (open_raises this); [reflexivity|apply _checkFocus_no_onOpen]. }
  rewrite H0, app_nil_r.
  destruct (open_edge this); [|reflexivity].
  destruct (onOpen (properties this)); reflexivity.
Qed.

Section RunFacts.

Variable esc : Z.
Variable fmt : list (string * option string) -> list (string * Value).

Lemma run_cons (s : Step) (rest : list Step) (this : DialogBase) :
  run esc fmt (s :: rest) this =
  (fst (run esc fmt rest (fst (step esc fmt s this))),
   snd (step esc fmt s this) ++ snd (run esc fmt rest (fst (step esc fmt s this)))).
Proof.
  cbn [run].
  destruct (step esc fmt s this) as [this1 t1]. cbn [fst snd].
  destruct (run esc fmt rest this1) as [this2 t2]. reflexivity.
Qed.

Lemma count_onOpen_app (t1 t2 : list Effect) :
  count_onOpen (t1 ++ t2) = (count_onOpen t1 + count_onOpen t2)%nat.
Proof. unfold count_onOpen. rewrite filter_app, length_app. reflexivity. Qed.

(** One step invokes [onOpen] once when it is a render pass at the open
    transition and the callback is supplied, and never otherwise. *)
Lemma step_count_onOpen (s : Step) (this : DialogBase) :
  count_onOpen (snd (step esc fmt s this)) =
  match s with
  | Render _ p ch =>
      if open_edge (setProperties p ch this)
      then match onOpen p with Some _ => 1%nat | None => 0%nat end
      else 0%nat
  | _ => 0%nat
  end.
Proof.
  unfold count_onOpen.
  destruct s as [host p ch|host e|host e|host e]; cbn [step snd].
  - rewrite render_onOpen_calls. cbn [setProperties properties].
    destruct (open_edge _); [destruct (onOpen p)|]; reflexivity.
  - rewrite _onCloseClick_run. cbn [effects snd filter is_Call_onOpen].
    rewrite _close_no_onOpen. reflexivity.
  - rewrite _onUnderlayClick_run. cbn [effects snd filter is_Call_onOpen].
    destruct (is_true (modal (properties this)));
      rewrite ?_close_no_onOpen; reflexivity.
  - rewrite _onKeyUp_run. cbn [effects snd filter is_Call_onOpen].
    destruct (which e =? esc);
      rewrite ?_close_no_onOpen; reflexivity.
Qed.

(** What a step does to [_wasOpen]. *)
Lemma step_wasOpen (s : Step) (this : DialogBase) :
  _wasOpen (fst (step esc fmt s this)) =
  match s with
  | Render _ p ch =>
      if open_raises (setProperties p ch this) then _wasOpen this
      else Some (default false (open p))
  | _ => _wasOpen this
  end.
Proof.
  destruct s as [host p ch|host e|host e|host e]; cbn [step fst].
  - rewrite render_wasOpen. reflexivity.
  - rewrite _onCloseClick_run. reflexivity.
  - rewrite _onUnderlayClick_run. reflexivity.
  - rewrite _onKeyUp_run. reflexivity.
Qed.

(** Once [_wasOpen] agrees with the constant [open], no step is an open
    transition any more. *)
Lemma run_settled (b : bool) (steps : list Step) :
  Forall (open_held b) steps ->
  forall this : DialogBase,
    b = false \/ is_true (_wasOpen this) = true ->
    count_onOpen (snd (run esc fmt steps this)) = 0%nat.
Proof.
  induction 1 as [|s rest Hs _ IH]; intros this Hb; [reflexivity|].
  assert (He : forall host p ch, s = Render host p ch ->
                 open_edge (setProperties p ch this) = false).
  { intros host p ch ->. cbn in Hs. unfold open_edge.
    cbn [setProperties properties _wasOpen].
    rewrite Hs. destruct Hb as [-> | ->]; [reflexivity|].
    rewrite andb_false_r. reflexivity. }
  rewrite run_cons. cbn [snd]. rewrite count_onOpen_app.
  rewrite IH.
  - rewrite step_count_onOpen. destruct s as [host p ch| | |]; try reflexivity.
    rewrite (He host p ch eq_refl). reflexivity.
  - rewrite step_wasOpen. destruct s as [host p ch| | |]; try exact Hb.
    rewrite (open_raises_no_edge _ (He host p ch eq_refl)).
    cbn in Hs. rewrite Hs. destruct b; auto.
Qed.

Lemma run_open_held_once (b : bool) (steps : list Step) :
  Forall (open_held b) steps ->
  Forall onOpen_returns steps ->
  forall this : DialogBase,
    (count_onOpen (snd (run esc fmt steps this)) <= 1)%nat.
Proof.
  induction 1 as [|s rest Hs Hrest IH]; intros Hret this; [cbn; lia|].
  inversion Hret as [|? ? Hr Hret']. subst.
  rewrite run_cons. cbn [snd]. rewrite count_onOpen_app.
  destruct s as [host p ch|host e|host e|host e].
  - rewrite (run_settled b rest Hrest).
    + rewrite step_count_onOpen.
      destruct (open_edge _); [destruct (onOpen p)|]; lia.
    + rewrite step_wasOpen. cbn in Hs, Hr. unfold open_raises.
      cbn [setProperties properties]. rewrite Hr, andb_false_r, Hs.
      destruct b; auto.
  - rewrite step_count_onOpen.
    specialize (IH Hret' (fst (step esc fmt (CloseClick host e) this))). lia.
  - rewrite step_count_onOpen.
    specialize (IH Hret' (fst (step esc fmt (UnderlayClick host e) this))). lia.
  - rewrite step_count_onOpen.
    specialize (IH Hret' (fst (step esc fmt (KeyUp host e) this))). lia.
Qed.

End RunFacts.

(** C3 (as the code has it).  A render pass invokes [onOpen] exactly
    when [open] is true and the value of [_wasOpen] left by the previous
    pass is false or undefined (and the caller supplied the callback).
    At that edge [_callFocus] is set and [_initialFocusSet] is cleared
    before the callback is called.  When the callback returns, the focus
    check of the same pass runs on these flags and the pass stores the
    current [open] in [_wasOpen], as does every pass that is no open
    transition.  When the callback raises, the pass ends with that call:
    [_wasOpen] keeps its value and the focus check does not run.  So in
    any sequence of passes (and event dispatches) in which [open] keeps
    one value and every [onOpen] returns, [onOpen] is invoked at most
    once. *)
Theorem onOpen_fires_at_open_transition_only :
  (forall fmt (host : Host) (this : DialogBase),
     let r := render fmt host this in
     let this1 :=
       with_wasOpen (Some true)
         (with_initialFocusSet false (with_callFocus true this)) in
     (open_edge this = true <->
      is_true (open (properties this)) = true /\
      (_wasOpen this = Some false \/ _wasOpen this = None))
     /\ filter is_Call_onOpen (effects r) =
        (if open_edge this
         then match onOpen (properties this) with
              | Some f => [Call_onOpen f]
              | None => []
              end
         else [])
     /\ (forall f, onOpen (properties this) = Some f ->
           (In (Call_onOpen f) (effects r) <-> open_edge this = true))
     /\ (open_edge this = true ->
         raises_opt (onOpen (properties this)) = false ->
           _callFocus this1 = true /\ _initialFocusSet this1 = false /\
           instance r = instance (_checkFocus host this1) /\
           effects r =
             effects (_onOpen host this) ++ effects (_checkFocus host this1))
     /\ (open_edge this = true ->
         raises_opt (onOpen (properties this)) = true ->
           r = (Raised, with_initialFocusSet false (with_callFocus true this),
                effects (_onOpen host this)))
     /\ _wasOpen (instance r) =
        (if open_raises this then _wasOpen this
         else Some (default false (open (properties this)))))
  /\ (forall esc fmt (b : bool) (steps : list Step) (this : DialogBase),
        Forall (open_held b) steps ->
        Forall onOpen_returns steps ->
        (count_onOpen (snd (run esc fmt steps this)) <= 1)%nat).
Proof.
  split.
  - intros fmt host this r this1. subst r.
    split; [apply open_edge_iff|].
    split; [apply render_onOpen_calls|].
    split.
    + intros f Hf. split.
      * intros Hin.
        assert (Hin' : In (Call_onOpen f)
                         (filter is_Call_onOpen (effects (render fmt host this)))).
        { apply filter_In. split; [exact Hin|reflexivity]. }
        rewrite render_onOpen_calls in Hin'.
        destruct (open_edge this); [reflexivity|destruct Hin'].
      * intros He.
        assert (Hin' : In (Call_onOpen f)
                         (filter is_Call_onOpen (effects (render fmt host this)))).
        { rewrite render_onOpen_calls, He, Hf. left. reflexivity. }
        apply filter_In in Hin'. exact (proj1 Hin').
    + split; [|split; [|apply render_wasOpen]].
      * intros He Hr. split; [reflexivity|]. split; [reflexivity|].
        exact (render_edge fmt host this He Hr).
      * intros He Hr. exact (render_edge_raises fmt host this He Hr).
  - intros esc fmt b steps this H Hr.
    apply run_open_held_once with (b := b); assumption.
Qed.

Lemma onOpen_fires_at_open_transition_only_witness :
  (count_onOpen
     (snd (run 27 sample_aria
             [ Render (sample_host false) (sample_properties (Some true) None None) [];
               KeyUp (sample_host false) {| which := 27 |};
               Render (sample_host true) (sample_properties (Some true) None None) [];
               Render (sample_host false) (sample_properties (Some true) (Some true) None) [] ]
             (sample_new (sample_properties None None None)))) <= 1)%nat
  /\ In (Call_onOpen (Fn "opened"))
        (effects (render sample_aria (sample_host false)
                    (sample_new (sample_properties (Some true) None None))))
  /\ effects (render sample_aria (sample_host false)
                (sample_new (sample_properties (Some true) None None))) =
     [Call_onOpen (Fn "opened"); Focus_get "main"; Focus_set "main"]
  /\ render sample_aria (sample_host false)
       (sample_new (sample_raising (Some true) None None)) =
     (Raised,
      with_initialFocusSet false
        (with_callFocus true (sample_new (sample_raising (Some true) None None))),
      [Call_onOpen (Raising "opened")]).
Proof.
  split.
  - apply (proj2 onOpen_fires_at_open_transition_only) with (b := true);
      repeat constructor.
  - destruct (proj1 onOpen_fires_at_open_transition_only sample_aria
                (sample_host false)
                (sample_new (sample_properties (Some true) None None)))
      as [_ [_ [Hiff [Hedge _]]]].
    split; [|split].
    + apply (Hiff (Fn "opened") eq_refl). reflexivity.
    + destruct (Hedge eq_refl eq_refl) as [_ [_ [_ He]]]. rewrite He. reflexivity.
    + destruct (proj1 onOpen_fires_at_open_transition_only sample_aria
                  (sample_host false)
                  (sample_new (sample_raising (Some true) None None)))
        as [_ [_ [_ [_ [Hraise _]]]]].
      rewrite (Hraise eq_refl eq_refl). reflexivity.
Defined.

(** C3, against the sentence as the specification states it: with an
    [onOpen] that raises and [open] held true, the first pass ends in
    the callback before [_wasOpen] is stored, so the second pass is an
    open transition again: [onOpen] is invoked twice, and [_wasOpen] is
    still undefined after both passes. *)
Lemma raising_onOpen_fires_on_every_pass :
  Forall (open_held true)
    [ Render (sample_host false) (sample_raising (Some true) None None) [];
      Render (sample_host false) (sample_raising (Some true) None None) [] ]
  /\ snd (run 27 sample_aria
            [ Render (sample_host false) (sample_raising (Some true) None None) [];
              Render (sample_host false) (sample_raising (Some true) None None) [] ]
            (sample_new (sample_properties None None None))) =
     [Call_onOpen (Raising "opened"); Call_onOpen (Raising "opened")]
  /\ count_onOpen
       (snd (run 27 sample_aria
               [ Render (sample_host false) (sample_raising (Some true) None None) [];
                 Render (sample_host false) (sample_raising (Some true) None None) [] ]
               (sample_new (sample_properties None None None)))) = 2%nat
  /\ _wasOpen
       (instance (render sample_aria (sample_host false)
                    (sample_new (sample_raising (Some true) None None)))) = None.
Proof.
  split; [repeat constructor|]. split; [reflexivity|]. split; reflexivity.
Qed.

(** ** Focus that never arrives *)

(** A pass in which focus is not inside leaves [_initialFocusSet] down
    when it was down or when the pass is the open transition; it then
    issues no close request, and [_callFocus] changes only through the
    open transition. *)
Lemma render_unfocused fmt (host : Host) (this : DialogBase) :
  containsFocus (meta_Focus_get host "main") = false ->
  open_edge this = true \/ _initialFocusSet this = false ->
  let r := render fmt host this in
  _initialFocusSet (instance r) = false /\
  (forall f, ~ In (Call_onRequestClose f) (effects r)) /\
  _callFocus (instance r) = (if open_edge this then true else _callFocus this) /\
  (forall k, In (Focus_set k) (effects r) -> _callFocus (instance r) = true).
Proof.
  intros Hf Hc r. subst r.
  assert (Hchk : forall this1 : DialogBase,
             _initialFocusSet this1 = false ->
             _checkFocus host this1 =
             (Returned tt, this1,
              if negb (is_true (open (properties this1))) then []
              else Focus_get "main" ::
                   (if _callFocus this1 then [Focus_set "main"] else []))).
  { intros this1 H1. rewrite _checkFocus_run, Hf, H1.
    destruct (negb (is_true (open (properties this1)))); reflexivity. }
  destruct (render_at_check fmt host this) as [Ei Ee].
  destruct (at_check_fields host this) as [_ [_ [_ [_ [Hcf Hfl]]]]].
  assert (Hflag : _initialFocusSet (at_check host this) = false).
  { rewrite Hfl. destruct (open_edge this); [reflexivity|].
    destruct Hc as [Hc|Hc]; [discriminate Hc|exact Hc]. }
  assert (Hon : forall e,
             In e (if open_edge this
                   then match onOpen (properties this) with
                        | Some f => [Call_onOpen f]
                        | None => []
                        end
                   else []) -> is_Call_onOpen e = true).
  { intros e H. destruct (open_edge this); [|destruct H].
    destruct (onOpen (properties this)); [|destruct H].
    destruct H as [<-|[]]. reflexivity. }
  rewrite Ei, Ee.
  destruct (open_raises this) eqn:Hr.
  - unfold open_raises in Hr. apply andb_true_iff in Hr. destruct Hr as [He _].
    rewrite app_nil_r. split; [reflexivity|].
    split; [intros f H; apply Hon in H; discriminate H|].
    split; [rewrite He; reflexivity|].
    intros k H. apply Hon in H. discriminate H.
  - rewrite (Hchk _ Hflag). cbn [instance effects fst snd].
    split; [exact Hflag|]. split; [|split; [exact Hcf|]].
    + intros f H. apply in_app_or in H. destruct H as [H|H].
      * apply Hon in H. discriminate H.
      * destruct (negb (is_true (open (properties (at_check host this)))));
          [destruct H|].
        destruct H as [H|H]; [discriminate H|].
        destruct (_callFocus (at_check host this));
          [destruct H as [H|[]]; discriminate H|destruct H].
    + intros k H. apply in_app_or in H. destruct H as [H|H].
      * apply Hon in H. discriminate H.
      * destruct (negb (is_true (open (properties (at_check host this)))));
          [destruct H|].
        destruct H as [H|H]; [discriminate H|].
        destruct (_callFocus (at_check host this)); [reflexivity|destruct H].
Qed.

Lemma run_unfocused_flag esc fmt (steps : list Step) :
  Forall unfocused_render steps ->
  forall this : DialogBase,
    _initialFocusSet this = false ->
    _initialFocusSet (fst (run esc fmt steps this)) = false.
Proof.
  induction 1 as [|s rest Hs _ IH]; intros this Hi; [exact Hi|].
  rewrite run_cons. cbn [fst]. apply IH.
  destruct s as [host p ch| | |]; [|destruct Hs..].
  cbn [step fst].
  apply (render_unfocused fmt host (setProperties p ch this) Hs).
  right. exact Hi.
Qed.

(** With focus not inside and the flag down, the focus check, when the
    pass gets to it, changes nothing in the instance. *)
Lemma render_unfocused_instance fmt (host : Host) (this : DialogBase) :
  containsFocus (meta_Focus_get host "main") = false ->
  open_edge this = true \/ _initialFocusSet this = false ->
  _initialFocusSet (at_check host this) = false /\
  instance (render fmt host this) =
    (if open_raises this
     then with_initialFocusSet false (with_callFocus true this)
     else at_check host this).
Proof.
  intros Hf Hc.
  assert (Hflag : _initialFocusSet (at_check host this) = false).
  { rewrite (proj2 (proj2 (proj2 (proj2 (proj2 (at_check_fields host this)))))).
    destruct (open_edge this); [reflexivity|].
    destruct Hc as [Hc|Hc]; [discriminate Hc|exact Hc]. }
  split; [exact Hflag|].
  rewrite (proj1 (render_at_check fmt host this)).
  destruct (open_raises this); [reflexivity|].
  rewrite _checkFocus_run, Hf, Hflag.
  destruct (negb (is_true (open (properties (at_check host this)))));
    reflexivity.
Qed.

(** C4. Take an open transition and any render passes after it, such
    that in none of them the focus query finds focus in the main region.
    Then in every pass of the sequence [_initialFocusSet] is false when
    the focus check runs, so the focus-lost branch is not taken: the
    check leaves the instance as it found it (a pass that [onOpen] made
    end early has the instance as [_onOpen] left it), the pass invokes
    no [onRequestClose], and [_callFocus] is changed by an open
    transition only, never by a loss of focus. *)
Theorem never_focused_never_traps
    esc fmt (host0 : Host) (p0 : DialogProperties) (ch0 : list DNode)
    (rest : list Step) (this : DialogBase) :
  is_true (open p0) = true ->
  is_true (_wasOpen this) = false ->
  Forall unfocused_render (Render host0 p0 ch0 :: rest) ->
  forall (pre post : list Step) (host : Host) (p : DialogProperties)
         (ch : list DNode),
    Render host0 p0 ch0 :: rest = pre ++ Render host p ch :: post ->
    let before := setProperties p ch (fst (run esc fmt pre this)) in
    let r := render fmt host before in
    _initialFocusSet (at_check host before) = false /\
    instance r =
      (if open_raises before
       then with_initialFocusSet false (with_callFocus true before)
       else at_check host before) /\
    _initialFocusSet (instance r) = false /\
    (forall f, ~ In (Call_onRequestClose f) (effects r)) /\
    _callFocus (instance r) =
      (if open_edge before then true else _callFocus before).
Proof.
  intros Ho Hw Hall pre post host p ch Hsplit before r.
  assert (Hf : containsFocus (meta_Focus_get host "main") = false).
  { rewrite Hsplit in Hall. apply Forall_app in Hall. destruct Hall as [_ Hall].
    inversion Hall as [|? ? Hs _]. exact Hs. }
  assert (Hc : open_edge before = true \/ _initialFocusSet before = false).
  { destruct pre as [|s0 pre'].
    - left. cbn in Hsplit. injection Hsplit as <- <- <- <-.
      subst before. unfold open_edge.
      cbn [run fst setProperties properties _wasOpen].
      rewrite is_true_open_default, Ho, Hw. reflexivity.
    - right. cbn [app] in Hsplit. injection Hsplit as <- Hrest.
      subst before. cbn [setProperties _initialFocusSet].
      rewrite run_cons. cbn [fst].
      rewrite Hrest in Hall. inversion Hall as [|? ? Hs0 Hall']. subst.
      apply Forall_app in Hall'. destruct Hall' as [Hpre _].
      apply run_unfocused_flag; [exact Hpre|].
      cbn [step fst].
      apply (render_unfocused fmt host0 (setProperties p0 ch0 this) Hs0).
      left. unfold open_edge. cbn [setProperties properties _wasOpen].
      rewrite is_true_open_default, Ho, Hw. reflexivity. }
  destruct (render_unfocused fmt host before Hf Hc) as [H1 [H2 [H3 _]]].
  destruct (render_unfocused_instance fmt host before Hf Hc) as [H4 H5].
  repeat split; assumption.
Qed.

Lemma never_focused_never_traps_witness :
  _initialFocusSet
    (instance
       (render sample_aria (sample_host false)
          (setProperties (sample_properties (Some true) None None) []
             (fst (run 27 sample_aria
                     [ Render (sample_host false)
                         (sample_properties (Some true) None None) [];
                       Render (sample_host false)
                         (sample_properties (Some true) (Some true) None) [] ]
                     (sample_new (sample_properties None None None))))))) = false.
Proof.
  destruct (never_focused_never_traps 27 sample_aria
              (sample_host false) (sample_properties (Some true) None None) []
              [ Render (sample_host false)
                  (sample_properties (Some true) (Some true) None) [];
                Render (sample_host false)
                  (sample_properties (Some true) None None) [] ]
              (sample_new (sample_properties None None None))
              eq_refl eq_refl
              ltac:(repeat constructor)
              [ Render (sample_host false)
                  (sample_properties (Some true) None None) [];
                Render (sample_host false)
                  (sample_properties (Some true) (Some true) None) [] ]
              []
              (sample_host false) (sample_properties (Some true) None None) []
              eq_refl) as [_ [_ [H _]]].
  exact H.
Defined.

(** ** The close guard *)

Lemma _checkFocus_close_calls (host : Host) (this : DialogBase) (f : Callback) :
  In (Call_onRequestClose f) (effects (_checkFocus host this)) ->
  In (Call_onRequestClose f) (effects (_close host this)).
Proof.
  rewrite _checkFocus_run.
  destruct (negb (is_true (open (properties this)))); [intros []|].
  destruct (containsFocus (meta_Focus_get host "main"));
    [intros [H|[]]; discriminate H|].
  destruct (_initialFocusSet this).
  - destruct (is_true (modal (properties this)));
      [intros [H|[H|[]]]; discriminate H|].
    cbn [effects snd]. intros [H|H]; [discriminate H|].
    apply in_app_or in H. destruct H as [H|H]; [exact H|].
    destruct (close_raises this); [destruct H|].
    destruct (_callFocus this); [destruct H as [H|[]]; discriminate H|destruct H].
  - cbn [effects snd]. intros [H|H]; [discriminate H|].
    destruct (_callFocus this); [destruct H as [H|[]]; discriminate H|destruct H].
Qed.

Lemma when_onOpen_frame (b : bool) (host : Host) (this : DialogBase) :
  let r := when b _onOpen host this in
  properties (instance r) = properties this /\
  children (instance r) = children this /\
  _titleId (instance r) = _titleId this /\
  _wasOpen (instance r) = _wasOpen this /\
  forall f, ~ In (Call_onRequestClose f) (effects r).
Proof.
  destruct b; cbn [when].
  - rewrite _onOpen_run. repeat split.
    intros f H. cbn in H.
    destruct (onOpen (properties this)); [destruct H as [H|[]]; discriminate H|destruct H].
  - repeat split. intros f [].
Qed.

Lemma _checkFocus_frame (host : Host) (this : DialogBase) :
  let r := _checkFocus host this in
  properties (instance r) = properties this /\
  children (instance r) = children this /\
  _titleId (instance r) = _titleId this /\
  _wasOpen (instance r) = _wasOpen this.
Proof.
  cbn zeta. rewrite _checkFocus_run.
  destruct (negb (is_true (open (properties this)))); [repeat split|].
  destruct (containsFocus (meta_Focus_get host "main")); [repeat split|].
  destruct (_initialFocusSet this); [|repeat split].
  destruct (is_true (modal (properties this))); repeat split.
Qed.

Lemma render_properties fmt (host : Host) (this : DialogBase) :
  properties (instance (render fmt host this)) = properties this.
Proof.
  rewrite (proj1 (render_at_check fmt host this)).
  destruct (open_raises this); [reflexivity|].
  rewrite (proj1 (_checkFocus_frame _ _)).
  apply (at_check_fields host this).
Qed.

Lemma render_close_calls fmt (host : Host) (this : DialogBase) (f : Callback) :
  In (Call_onRequestClose f) (effects (render fmt host this)) ->
  In (Call_onRequestClose f) (effects (_close host this)).
Proof.
  rewrite (proj2 (render_at_check fmt host this)). intros H.
  apply in_app_or in H. destruct H as [H|H].
  - destruct (open_edge this); [|destruct H].
    destruct (onOpen (properties this)); [|destruct H].
    destruct H as [H|[]]. discriminate H.
  - destruct (open_raises this); [destruct H|].
    apply _checkFocus_close_calls in H.
    rewrite (_close_effects_properties host host _ this) in H; [exact H|].
    apply (at_check_fields host this).
Qed.

Lemma step_closeable esc fmt (s : Step) (this : DialogBase) :
  closeable (properties (fst (step esc fmt s this))) = closeable_after s this.
Proof.
  destruct s as [host p ch|host e|host e|host e]; cbn [step fst closeable_after].
  - rewrite render_properties. reflexivity.
  - rewrite _onCloseClick_run. reflexivity.
  - rewrite _onUnderlayClick_run. reflexivity.
  - rewrite _onKeyUp_run. reflexivity.
Qed.

Lemma step_guarded esc fmt (s : Step) (this : DialogBase) (f : Callback) :
  closeable_after s this = Some false ->
  ~ In (Call_onRequestClose f) (snd (step esc fmt s this)).
Proof.
  destruct s as [host p ch|host e|host e|host e];
    cbn [step snd closeable_after]; intros Hc Hin.
  - apply render_close_calls in Hin.
    rewrite (proj1 (_close_guarded host (setProperties p ch this) Hc)) in Hin.
    destruct Hin.
  - rewrite _onCloseClick_run, (proj1 (_close_guarded host this Hc)) in Hin.
    destruct Hin as [H|[]]; discriminate H.
  - rewrite _onUnderlayClick_run, (proj1 (_close_guarded host this Hc)) in Hin.
    destruct (is_true (modal (properties this)));
      destruct Hin as [H|[]]; discriminate H.
  - rewrite _onKeyUp_run, (proj1 (_close_guarded host this Hc)) in Hin.
    destruct (which e =? esc); destruct Hin as [H|[]]; discriminate H.
Qed.

Lemma run_guarded esc fmt (steps : list Step) :
  Forall not_closeable steps ->
  forall (this : DialogBase) (f : Callback),
    closeable (properties this) = Some false ->
    ~ In (Call_onRequestClose f) (snd (run esc fmt steps this)).
Proof.
  induction 1 as [|s rest Hs _ IH]; intros this f Hc; [intros []|].
  assert (Ha : closeable_after s this = Some false).
  { destruct s; cbn in *; assumption. }
  rewrite run_cons. cbn [snd]. intros Hin.
  apply in_app_or in Hin. destruct Hin as [Hin|Hin].
  - exact (step_guarded esc fmt s this f Ha Hin).
  - apply (IH (fst (step esc fmt s this)) f); [|exact Hin].
    rewrite step_closeable. exact Ha.
Qed.

(** C5. While [closeable] is false no close-triggering event invokes
    [onRequestClose]: not the close button, not the underlay, not the
    Escape key, not the loss of focus of a non-modal dialog in the focus
    check of a render pass.  The close request is a silent no-op. *)
Theorem closeable_false_blocks_close
    esc fmt (host : Host) (this : DialogBase)
    (e : MouseEvent) (k : KeyboardEvent) :
  closeable (properties this) = Some false ->
  _close host this = (Returned tt, this, [])
  /\ _onCloseClick e host this =
     (Returned tt, this, [StopPropagation (Mouse e)])
  /\ _onUnderlayClick e host this =
     (Returned tt, this, [StopPropagation (Mouse e)])
  /\ _onKeyUp esc k host this =
     (Returned tt, this, [StopPropagation (Keyboard k)])
  /\ (forall f, ~ In (Call_onRequestClose f) (effects (_checkFocus host this)))
  /\ (forall f, ~ In (Call_onRequestClose f) (effects (render fmt host this)))
  /\ (forall steps f,
        Forall not_closeable steps ->
        ~ In (Call_onRequestClose f) (snd (run esc fmt steps this))).
Proof.
  intros Hc.
  destruct (_close_guarded host this Hc) as [Hg Hr].
  split; [rewrite _close_run, Hg, Hr; reflexivity|].
  split; [rewrite _onCloseClick_run, Hg, Hr; reflexivity|].
  split; [rewrite _onUnderlayClick_run, Hg, Hr;
          destruct (is_true (modal (properties this))); reflexivity|].
  split; [rewrite _onKeyUp_run, Hg, Hr; destruct (which k =? esc); reflexivity|].
  split; [intros f H; apply _checkFocus_close_calls in H;
          rewrite Hg in H; destruct H|].
  split; [intros f H; apply render_close_calls in H;
          rewrite Hg in H; destruct H|].
  intros steps f Hall. apply run_guarded; assumption.
Qed.

Lemma closeable_false_blocks_close_witness :
  _onKeyUp 27 {| which := 27 |} (sample_host false)
    (sample_focused (sample_properties (Some true) None (Some false))) =
  (Returned tt, sample_focused (sample_properties (Some true) None (Some false)),
   [StopPropagation (Keyboard {| which := 27 |})]).
Proof.
  destruct (closeable_false_blocks_close 27 sample_aria (sample_host false)
              (sample_focused (sample_properties (Some true) None (Some false)))
              click {| which := 27 |} eq_refl) as [_ [_ [_ [H _]]]].
  exact H.
Defined.

(** ** The listeners *)

(** C6 (as the code has it). A key-up event always has its propagation
    stopped.  When its key code is Escape the handler then issues a close
    request, whatever [modal] is: [onRequestClose] is invoked when
    [closeable] is not false.  For any other key code nothing more
    happens: no close request, and the instance is left as it was. *)
Theorem keyup_escape_requests_close
    esc (e : KeyboardEvent) (host : Host) (this : DialogBase) :
  instance (_onKeyUp esc e host this) = this
  /\ (which e = esc ->
      effects (_onKeyUp esc e host this) =
        StopPropagation (Keyboard e) :: effects (_close host this) /\
      effects (_onKeyUp esc e host this) =
        StopPropagation (Keyboard e) ::
        (if default true (closeable (properties this))
         then match onRequestClose (properties this) with
              | Some f => [Call_onRequestClose f]
              | None => []
              end
         else []))
  /\ (which e <> esc ->
      _onKeyUp esc e host this =
      (Returned tt, this, [StopPropagation (Keyboard e)])).
Proof.
  rewrite _onKeyUp_run. split; [reflexivity|]. split.
  - intros E. apply Z.eqb_eq in E. rewrite E. cbn [effects snd].
    rewrite <- (_close_effects host this). split; reflexivity.
  - intros E. apply Z.eqb_neq in E. rewrite E. reflexivity.
Qed.

Lemma keyup_escape_requests_close_witness :
  effects (_onKeyUp 27 {| which := 27 |} (sample_host true)
             (sample_focused (sample_properties (Some true) (Some true) None))) =
    [StopPropagation (Keyboard {| which := 27 |});
     Call_onRequestClose (Fn "requestClose")]
  /\ _onKeyUp 27 {| which := 13 |} (sample_host true)
       (sample_focused (sample_properties (Some true) (Some true) None)) =
     (Returned tt, sample_focused (sample_properties (Some true) (Some true) None),
      [StopPropagation (Keyboard {| which := 13 |})]).
Proof.
  split.
  - destruct (keyup_escape_requests_close 27 {| which := 27 |} (sample_host true)
                (sample_focused (sample_properties (Some true) (Some true) None)))
      as [_ [H _]].
    destruct (H eq_refl) as [_ H']. exact H'.
  - destruct (keyup_escape_requests_close 27 {| which := 13 |} (sample_host true)
                (sample_focused (sample_properties (Some true) (Some true) None)))
      as [_ [_ H]].
    apply H. discriminate.
Defined.

(** C6, against the sentence as the specification states it: a key-up event of an open dialog
    with a key code other than Escape does have an effect, its
    propagation is stopped. *)
Lemma keyup_other_key_stops_propagation :
  is_true (open (properties
             (sample_focused (sample_properties (Some true) None None)))) = true
  /\ which {| which := 65 |} <> 27
  /\ effects (_onKeyUp 27 {| which := 65 |} (sample_host true)
                (sample_focused (sample_properties (Some true) None None))) =
     [StopPropagation (Keyboard {| which := 65 |})]
  /\ effects (_onKeyUp 27 {| which := 65 |} (sample_host true)
                (sample_focused (sample_properties (Some true) None None))) <> [].
Proof.
  split; [reflexivity|]. split; [discriminate|]. split; [reflexivity|].
  discriminate.
Qed.

(** C7. An underlay click has its propagation stopped; it issues a close
    request when [modal] is falsy and none when [modal] is true. *)
Theorem underlay_click_closes_unless_modal
    (e : MouseEvent) (host : Host) (this : DialogBase) :
  instance (_onUnderlayClick e host this) = this
  /\ (exists t, effects (_onUnderlayClick e host this) =
                  StopPropagation (Mouse e) :: t)
  /\ (is_true (modal (properties this)) = false ->
      effects (_onUnderlayClick e host this) =
        StopPropagation (Mouse e) :: effects (_close host this))
  /\ (is_true (modal (properties this)) = true ->
      effects (_onUnderlayClick e host this) = [StopPropagation (Mouse e)] /\
      forall f, ~ In (Call_onRequestClose f)
                     (effects (_onUnderlayClick e host this))).
Proof.
  rewrite _onUnderlayClick_run. split; [reflexivity|].
  split; [eexists; reflexivity|]. split.
  - intros E. rewrite E. reflexivity.
  - intros E. rewrite E. split; [reflexivity|].
    intros f [H|[]]. discriminate H.
Qed.

Lemma underlay_click_closes_unless_modal_witness :
  effects (_onUnderlayClick click (sample_host true)
             (sample_focused (sample_properties (Some true) None None))) =
    [StopPropagation (Mouse click); Call_onRequestClose (Fn "requestClose")]
  /\ effects (_onUnderlayClick click (sample_host true)
                (sample_focused (sample_properties (Some true) (Some true) None))) =
    [StopPropagation (Mouse click)].
Proof.
  split.
  - destruct (underlay_click_closes_unless_modal click (sample_host true)
                (sample_focused (sample_properties (Some true) None None)))
      as [_ [_ [H _]]].
    rewrite (H eq_refl). reflexivity.
  - destruct (underlay_click_closes_unless_modal click (sample_host true)
                (sample_focused (sample_properties (Some true) (Some true) None)))
      as [_ [_ [_ H]]].
    exact (proj1 (H eq_refl)).
Defined.

(** ** The rendered tree *)

(** C8. In a render pass with [open] false (or absent) the focus check
    returns at once: it does not query focus and changes neither
    [_callFocus] nor [_initialFocusSet]; the tree is the outer container
    with no children, so there is no underlay, no main region and no
    global key listener.  The pass has no effect outside the instance,
    and in the instance it only stores [_wasOpen]. *)
Theorem closed_dialog_is_inert fmt (host : Host) (this : DialogBase) :
  is_true (open (properties this)) = false ->
  _checkFocus host this = (Returned tt, this, [])
  /\ render fmt host this =
     (Returned (v "div" [ ("classes", this_theme host (Some css_root)) ] []),
      with_wasOpen (Some false) this,
      []).
Proof.
  intros Ho. split.
  - rewrite _checkFocus_run, Ho. reflexivity.
  - unfold render, bind, when. cbn -[_checkFocus _onOpen].
    rewrite is_true_open_default, Ho. cbn -[_checkFocus].
    rewrite _checkFocus_run. cbn [with_wasOpen properties].
    rewrite Ho. reflexivity.
Qed.

Lemma closed_dialog_is_inert_witness :
  render sample_aria (sample_host false)
    (sample_focused (sample_properties (Some false) None None)) =
  (Returned (v "div" [ ("classes", VString "themed") ] []),
   with_wasOpen (Some false)
     (sample_focused (sample_properties (Some false) None None)),
   []).
Proof.
  destruct (closed_dialog_is_inert sample_aria (sample_host false)
              (sample_focused (sample_properties (Some false) None None))
              eq_refl) as [_ H].
  exact H.
Defined.

(** When both callbacks return, a pass returns a tree. *)
Lemma render_returns fmt (host : Host) (this : DialogBase) :
  callbacks_return this ->
  exists root, result (render fmt host this) = Returned root.
Proof.
  intros [Ho Hc].
  pose proof (render_result fmt host this) as H.
  unfold open_raises in H. rewrite Ho, andb_false_r in H.
  assert (Hr : result (_checkFocus host (at_check host this)) = Returned tt).
  { rewrite _checkFocus_run. unfold close_raises.
    rewrite (proj1 (at_check_fields host this)), Hc, andb_false_r.
    destruct (negb (is_true (open (properties this)))); [reflexivity|].
    destruct (containsFocus (meta_Focus_get host "main")); [reflexivity|].
    destruct (_initialFocusSet (at_check host this)); [|reflexivity].
    destruct (is_true (modal (properties this))); reflexivity. }
  rewrite Hr in H. exact H.
Qed.

(** The tree a pass of an open dialog returns.  It depends on the
    properties, the children and the title id, not on the flags, which
    are all the focus check changes. *)
Lemma render_tree_open fmt (host : Host) (this : DialogBase) (root : DNode) :
  is_true (open (properties this)) = true ->
  result (render fmt host this) = Returned root ->
  root =
  v "div"
    [ ("classes", this_theme host (Some css_root)) ]
    [ w GlobalEvent
        [ ("key", VString "global");
          ("document", VObject [ ("keyup", VFunction this_onKeyUp) ]) ];
      renderUnderlay host this;
      v "div"
        (fmt (default [] (aria (properties this))) ++
         [ ("aria-labelledby", VString (_titleId this));
           ("classes", this_theme host (Some css_main));
           ("enterAnimation",
            animation host (enterAnimation (properties this)) css_enter);
           ("exitAnimation",
            animation host (exitAnimation (properties this)) css_exit);
           ("key", VString "main");
           ("role", VString (role_string (default dialog (role (properties this)))));
           ("tabIndex", VNumber (-1)) ])
        [ v "div"
            [ ("classes", this_theme host (Some css_title));
              ("key", VString "title") ]
            [ renderTitle this;
              if default true (closeable (properties this)) then
                v "button"
                  [ ("classes", this_theme host (Some css_close));
                    ("type", VString "button");
                    ("onclick", VFunction this_onCloseClick) ]
                  [ text (closeText_of host (properties this));
                    w Icon
                      [ ("type", VString "closeIcon");
                        ("theme", theme (properties this));
                        ("classes", classes (properties this)) ] ]
              else null ];
          getContent host this ] ].
Proof.
  intros Ho. unfold render, bind.
  cbn -[_checkFocus _onOpen when closeText_of animation].
  rewrite when_onOpen_run, is_true_open_default, Ho.
  destruct (true && negb (is_true (_wasOpen this)));
    cbn -[_checkFocus closeText_of animation].
  1: destruct (raises_opt (onOpen (properties this)));
       cbn -[_checkFocus closeText_of animation];
       [intros H; discriminate H|].
  all: rewrite _checkFocus_run; cbn -[closeText_of animation _close];
    rewrite Ho; cbn -[closeText_of animation _close].
  all: destruct (containsFocus (meta_Focus_get host "main"));
    cbn -[closeText_of animation _close];
    [intros H; injection H as <-; reflexivity|].
  all: try (destruct (_initialFocusSet this); cbn -[closeText_of animation _close]).
  all: try (destruct (is_true (modal (properties this)));
            cbn -[closeText_of animation _close]).
  all: try (match goal with
            | |- context [close_raises ?x] => destruct (close_raises x)
            end; cbn -[closeText_of animation _close]).
  all: intros H; first [discriminate H | injection H as <-; reflexivity].
Qed.

(** Where the close control sits in the tree of an open dialog. *)
Lemma render_closeControl fmt (host : Host) (this : DialogBase) (root : DNode) :
  is_true (open (properties this)) = true ->
  result (render fmt host this) = Returned root ->
  closeControl root =
  Some (if default true (closeable (properties this))
        then v "button"
               [ ("classes", this_theme host (Some css_close));
                 ("type", VString "button");
                 ("onclick", VFunction this_onCloseClick) ]
               [ text (closeText_of host (properties this));
                 w Icon
                   [ ("type", VString "closeIcon");
                     ("theme", theme (properties this));
                     ("classes", classes (properties this)) ] ]
        else null).
Proof.
  intros Ho Hr. rewrite (render_tree_open fmt host this root Ho Hr).
  reflexivity.
Qed.

(** The text of the close control when [closeText] is falsy. *)
Lemma render_closeControlText_default
    fmt (host : Host) (this : DialogBase) (root : DNode) :
  not_string (closeText (properties this)) = true ->
  is_true (open (properties this)) = true ->
  closeable (properties this) <> Some false ->
  result (render fmt host this) = Returned root ->
  closeControlText root =
  Some (messages_close host ++ " " ++
        default "" (title (properties this)))%string.
Proof.
  intros Ht Ho Hc Hr.
  assert (Hd : default true (closeable (properties this)) = true).
  { destruct (closeable (properties this)) as [[|]|]; cbn; congruence. }
  unfold closeControlText.
  rewrite (render_closeControl fmt host this root Ho Hr), Hd.
  unfold closeText_of. rewrite Ht. reflexivity.
Qed.

(** C9 (as the code has it). In a render pass of an open, closeable
    dialog whose caller supplies no [closeText], the close control is a
    button whose text is the localized close phrase, one space, and the
    current title (the empty string when there is no title).  The pass
    returns a tree whenever the callbacks return. *)
Theorem default_close_text_is_phrase_space_title
    fmt (host : Host) (this : DialogBase) :
  closeText (properties this) = None ->
  is_true (open (properties this)) = true ->
  closeable (properties this) <> Some false ->
  (callbacks_return this ->
   exists root, result (render fmt host this) = Returned root)
  /\ forall root,
       result (render fmt host this) = Returned root ->
       closeControl root =
         Some (v "button"
                 [ ("classes", this_theme host (Some css_close));
                   ("type", VString "button");
                   ("onclick", VFunction this_onCloseClick) ]
                 [ text (messages_close host ++ " " ++
                         default "" (title (properties this)))%string;
                   w Icon
                     [ ("type", VString "closeIcon");
                       ("theme", theme (properties this));
                       ("classes", classes (properties this)) ] ])
       /\ closeControlText root =
          Some (messages_close host ++ " " ++
                default "" (title (properties this)))%string.
Proof.
  intros Ht Ho Hc. split; [apply render_returns|].
  intros root Hr.
  assert (Hd : default true (closeable (properties this)) = true).
  { destruct (closeable (properties this)) as [[|]|]; cbn; congruence. }
  unfold closeControlText.
  rewrite (render_closeControl fmt host this root Ho Hr), Hd.
  unfold closeText_of. rewrite Ht. split; reflexivity.
Qed.

Lemma default_close_text_is_phrase_space_title_witness :
  exists root,
    result (render sample_aria (sample_host false)
              (sample_new (sample_properties (Some true) None None))) =
    Returned root /\
    closeControlText root = Some "close Settings".
Proof.
  destruct (default_close_text_is_phrase_space_title sample_aria
              (sample_host false)
              (sample_new (sample_properties (Some true) None None))
              eq_refl eq_refl ltac:(discriminate)) as [Hex H].
  destruct (Hex (conj eq_refl eq_refl)) as [root Hr].
  exists root. split; [exact Hr|]. exact (proj2 (H root Hr)).
Defined.

(** C9, against the sentence as the specification states it: with the close phrase "close" and
    the title "Settings" and no [closeText], the close control reads
    "close Settings", which is not the phrase concatenated with the
    title, "closeSettings". *)
Lemma default_close_text_is_not_the_concatenation :
  closeText (sample_properties (Some true) None None) = None
  /\ (messages_close (sample_host false) ++
      default "" (title (sample_properties (Some true) None None)))%string =
     "closeSettings"
  /\ exists root,
       result (render sample_aria (sample_host false)
                 (sample_new (sample_properties (Some true) None None))) =
       Returned root
       /\ closeControlText root = Some "close Settings"
       /\ closeControlText root <>
          Some (messages_close (sample_host false) ++
                default "" (title (sample_properties (Some true) None None)))%string.
Proof.
  split; [reflexivity|]. split; [reflexivity|].
  eexists. split; [reflexivity|]. split; [reflexivity|discriminate].
Qed.

(** C10. A render pass whose caller supplies the empty string as
    [closeText] goes exactly as the pass without [closeText]: the same
    tree (or the same exception of the same callback), the same effects,
    the same fields in the instance; the text of the close control is
    the default made of the close phrase and the title. *)
Theorem empty_closeText_is_absent
    fmt (host : Host) (p : DialogProperties) (ch : list DNode)
    (this : DialogBase) :
  let a := setProperties (with_closeText (Some "") p) ch this in
  let b := setProperties (with_closeText None p) ch this in
  result (render fmt host a) = result (render fmt host b)
  /\ effects (render fmt host a) = effects (render fmt host b)
  /\ setProperties p ch (instance (render fmt host a)) =
     setProperties p ch (instance (render fmt host b))
  /\ (is_true (open p) = true -> closeable p <> Some false ->
      (callbacks_return a ->
       exists root, result (render fmt host a) = Returned root) /\
      forall root,
        result (render fmt host a) = Returned root ->
        closeControlText root =
        Some (messages_close host ++ " " ++ default "" (title p))%string).
Proof.
  intros a b.
  assert (H : result (render fmt host a) = result (render fmt host b)
              /\ effects (render fmt host a) = effects (render fmt host b)
              /\ setProperties p ch (instance (render fmt host a)) =
                 setProperties p ch (instance (render fmt host b))).
  { subst a b. unfold render, bind.
    cbn -[_checkFocus _onOpen when closeText_of].
    rewrite !when_onOpen_run.
    cbn -[_checkFocus closeText_of].
    destruct (default false (open p) && negb (is_true (_wasOpen this)));
      cbn -[_checkFocus closeText_of].
    1: destruct (raises_opt (onOpen p)); cbn -[_checkFocus closeText_of];
         [repeat split; reflexivity|].
    all: rewrite !_checkFocus_run, !_close_effects; unfold close_raises;
      cbn -[closeText_of].
    all: destruct (negb (is_true (open p))); cbn -[closeText_of];
      [repeat split; reflexivity|].
    all: destruct (containsFocus (meta_Focus_get host "main"));
      cbn -[closeText_of]; [repeat split; reflexivity|].
    all: try (destruct (_initialFocusSet this); cbn -[closeText_of]).
    all: try (destruct (is_true (modal p)); cbn -[closeText_of]).
    all: try (destruct (default true (closeable p) &&
                        raises_opt (onRequestClose p)); cbn -[closeText_of]).
    all: try (destruct (_callFocus this); cbn -[closeText_of]).
    all: repeat split; reflexivity. }
  destruct H as [H1 [H2 H3]].
  split; [exact H1|]. split; [exact H2|]. split; [exact H3|].
  intros Ho Hc. split; [apply render_returns|].
  intros root Hr.
  apply (render_closeControlText_default fmt host a root);
    assumption || reflexivity.
Qed.

Lemma empty_closeText_is_absent_witness :
  exists root,
    result (render sample_aria (sample_host false)
              (setProperties
                 (with_closeText (Some "") (sample_properties (Some true) None None))
                 [] (sample_new (sample_properties None None None)))) =
    Returned root /\
    closeControlText root = Some "close Settings".
Proof.
  destruct (empty_closeText_is_absent sample_aria (sample_host false)
              (sample_properties (Some true) None None) []
              (sample_new (sample_properties None None None)))
    as [_ [_ [_ H]]].
  destruct (H eq_refl ltac:(discriminate)) as [Hex Ht].
  destruct (Hex (conj eq_refl eq_refl)) as [root Hr].
  exists root. split; [exact Hr|]. exact (Ht root Hr).
Defined.

(** ** The flag [_initialFocusSet] and the history of a dialog *)

(** A pass of an open dialog that finds focus inside raises the flag,
    unless [onOpen] made the pass end before the check. *)
Lemma render_focus_seen fmt (host : Host) (this : DialogBase) :
  is_true (open (properties this)) = true ->
  containsFocus (meta_Focus_get host "main") = true ->
  open_raises this = false ->
  _initialFocusSet (instance (render fmt host this)) = true /\
  _callFocus (instance (render fmt host this)) = false /\
  _wasOpen (instance (render fmt host this)) = Some true.
Proof.
  intros Ho Hf Hr.
  assert (Hw : _wasOpen (instance (render fmt host this)) = Some true).
  { rewrite render_wasOpen, Hr, is_true_open_default, Ho. reflexivity. }
  split; [|split; [|exact Hw]];
    rewrite (proj1 (render_at_check fmt host this)), Hr, _checkFocus_run,
      (proj1 (at_check_fields host this)), Ho, Hf; reflexivity.
Qed.

(** While the dialog stays open the flag stays up. *)
Lemma render_keeps_flag fmt (host : Host) (this : DialogBase) :
  is_true (open (properties this)) = true ->
  is_true (_wasOpen this) = true ->
  _initialFocusSet this = true ->
  _initialFocusSet (instance (render fmt host this)) = true /\
  is_true (_wasOpen (instance (render fmt host this))) = true.
Proof.
  intros Ho Hw Hi. split.
  - destruct (render_no_edge fmt host this (open_edge_was_open this Hw))
      as [Ei _].
    rewrite Ei, _checkFocus_run.
    cbn [with_wasOpen properties _initialFocusSet _callFocus].
    rewrite Ho, Hi. cbn [negb].
    destruct (containsFocus (meta_Focus_get host "main")); [reflexivity|].
    destruct (is_true (modal (properties this))); cbn; exact Hi.
  - rewrite render_wasOpen,
      (open_raises_no_edge this (open_edge_was_open this Hw)),
      is_true_open_default, Ho.
    reflexivity.
Qed.

Lemma run_keeps_flag esc fmt (steps : list Step) :
  Forall (open_held true) steps ->
  forall this : DialogBase,
    is_true (_wasOpen this) = true ->
    _initialFocusSet this = true ->
    _initialFocusSet (fst (run esc fmt steps this)) = true /\
    is_true (_wasOpen (fst (run esc fmt steps this))) = true.
Proof.
  induction 1 as [|s rest Hs _ IH]; intros this Hw Hi; [split; assumption|].
  rewrite run_cons. cbn [fst].
  destruct s as [host p ch|host e|host e|host e]; cbn [step fst].
  - cbn in Hs.
    destruct (render_keeps_flag fmt host (setProperties p ch this)) as [H1 H2];
      try assumption.
    + cbn [setProperties properties].
      rewrite <- is_true_open_default. exact Hs.
    + apply IH; assumption.
  - rewrite _onCloseClick_run. apply IH; assumption.
  - rewrite _onUnderlayClick_run. apply IH; assumption.
  - rewrite _onKeyUp_run. apply IH; assumption.
Qed.

(** What a pass does when focus was inside and is not any more. *)
Lemma render_focus_lost fmt (host : Host) (this : DialogBase) :
  is_true (open (properties this)) = true ->
  is_true (_wasOpen this) = true ->
  _initialFocusSet this = true ->
  containsFocus (meta_Focus_get host "main") = false ->
  effects (render fmt host this) =
  if is_true (modal (properties this))
  then [Focus_get "main"; Focus_set "main"]
  else Focus_get "main" :: effects (_close host this) ++
       (if close_raises this then []
        else if _callFocus this then [Focus_set "main"] else []).
Proof.
  intros Ho Hw Hi Hf.
  destruct (render_no_edge fmt host this (open_edge_was_open this Hw))
    as [_ Ee].
  rewrite Ee, _checkFocus_run.
  cbn [with_wasOpen properties _initialFocusSet _callFocus].
  rewrite Ho, Hf, Hi. cbn [negb].
  destruct (is_true (modal (properties this))); [reflexivity|].
  cbn [effects snd].
  rewrite (_close_effects_properties host host
             (with_wasOpen (Some (default false (open (properties this)))) this)
             this eq_refl).
  reflexivity.
Qed.

(** The flag in terms of what happened: some pass of the open dialog
    found focus inside (its [onOpen], if it was called, returned), the
    dialog has been open in every pass since, and now a pass of the
    still open dialog finds focus outside.  A non-modal dialog then asks
    to be closed, a modal one takes focus back and does not ask. *)
Lemma focus_seen_then_lost esc fmt
    (host1 : Host) (p1 : DialogProperties) (ch1 : list DNode)
    (steps : list Step)
    (host : Host) (p : DialogProperties) (ch : list DNode)
    (this : DialogBase) :
  is_true (open p1) = true ->
  containsFocus (meta_Focus_get host1 "main") = true ->
  raises_opt (onOpen p1) = false ->
  Forall (open_held true) steps ->
  is_true (open p) = true ->
  containsFocus (meta_Focus_get host "main") = false ->
  let before :=
    setProperties p ch (fst (run esc fmt (Render host1 p1 ch1 :: steps) this)) in
  effects (render fmt host before) =
  if is_true (modal p)
  then [Focus_get "main"; Focus_set "main"]
  else Focus_get "main" :: effects (_close host before) ++
       (if close_raises before then []
        else if _callFocus before then [Focus_set "main"] else []).
Proof.
  intros Ho1 Hf1 Hr1 Hall Ho Hf before.
  assert (Hb : _initialFocusSet before = true /\ is_true (_wasOpen before) = true).
  { subst before. cbn [setProperties _initialFocusSet _wasOpen].
    rewrite run_cons. cbn [fst step].
    assert (Hn : open_raises (setProperties p1 ch1 this) = false).
    { unfold open_raises. cbn [setProperties properties].
      rewrite Hr1. apply andb_false_r. }
    destruct (render_focus_seen fmt host1 (setProperties p1 ch1 this) Ho1 Hf1 Hn)
      as [H1 [_ H2]].
    apply run_keeps_flag; [exact Hall| |exact H1].
    rewrite H2. reflexivity. }
  destruct Hb as [Hi Hw].
  exact (render_focus_lost fmt host before Ho Hw Hi Hf).
Qed.

(** * Further properties of the widget *)

(** ** The instance and the effects of a pass, in closed form *)

Lemma _close_only_calls (host : Host) (this : DialogBase) (e : Effect) :
  In e (effects (_close host this)) ->
  exists f, e = Call_onRequestClose f /\
            onRequestClose (properties this) = Some f /\
            closeable (properties this) <> Some false.
Proof.
  destruct (_close_effects_cases host this) as [E|[f [Hf [Hc E]]]];
    rewrite E; [intros []|].
  intros [<-|[]]. exists f. auto.
Qed.

Ltac in_cases :=
  repeat match goal with
  | H : In _ [] |- _ => destruct H
  | H : In _ (_ :: _) |- _ => destruct H as [H|H]; [try discriminate H|]
  | H : In _ (_ ++ _) |- _ => apply in_app_or in H; destruct H as [H|H]
  | H : In _ (effects (_close _ _)) |- _ =>
      apply _close_only_calls in H; destruct H as [? [H _]]; try discriminate H
  | H : In _ (if ?b then _ else _) |- _ => destruct b eqn:?
  | H : In _ (match ?o with Some _ => _ | None => _ end) |- _ => destruct o eqn:?
  end.

(** The effects of a pass: the call of [onOpen] at the open transition,
    then, unless that call raised, those of the focus check. *)
Lemma render_effects fmt (host : Host) (this : DialogBase) :
  effects (render fmt host this) =
  (if open_edge this
   then match onOpen (properties this) with
        | Some f => [Call_onOpen f]
        | None => []
        end
   else []) ++
  (if open_raises this then []
   else effects (_checkFocus host (at_check host this))).
Proof. exact (proj2 (render_at_check fmt host this)). Qed.

(** When the focus check raises: at the close request of a non-modal
    dialog that has lost focus. *)
Lemma _checkFocus_raised (host : Host) (this : DialogBase) :
  raised (_checkFocus host this) =
  is_true (open (properties this)) &&
  negb (containsFocus (meta_Focus_get host "main")) &&
  _initialFocusSet this &&
  negb (is_true (modal (properties this))) &&
  close_raises this.
Proof.
  rewrite _checkFocus_run.
  destruct (is_true (open (properties this))); [|reflexivity].
  destruct (containsFocus (meta_Focus_get host "main")); [reflexivity|].
  destruct (_initialFocusSet this); [|reflexivity].
  destruct (is_true (modal (properties this))); [reflexivity|].
  destruct (close_raises this); reflexivity.
Qed.

(** A pass raises when [onOpen] or the focus check does. *)
Lemma render_raised fmt (host : Host) (this : DialogBase) :
  raised (render fmt host this) =
  open_raises this || raised (_checkFocus host (at_check host this)).
Proof.
  pose proof (render_result fmt host this) as H. unfold raised.
  destruct (open_raises this); [rewrite H; reflexivity|].
  destruct (result (_checkFocus host (at_check host this)));
    [destruct H as [root ->]|rewrite H]; reflexivity.
Qed.

(** ** What the widget keeps *)

(** X1. A render pass changes neither the properties nor the children
    nor the title id of the instance: the widget never flips [open]
    itself. *)
Theorem render_keeps_properties_children_titleId
    fmt (host : Host) (this : DialogBase) :
  properties (instance (render fmt host this)) = properties this /\
  children (instance (render fmt host this)) = children this /\
  _titleId (instance (render fmt host this)) = _titleId this.
Proof.
  rewrite (proj1 (render_at_check fmt host this)).
  destruct (open_raises this); [repeat split|].
  destruct (_checkFocus_frame host (at_check host this)) as [Hp [Hc [Ht _]]].
  cbn zeta in Hp, Hc, Ht. rewrite Hp, Hc, Ht.
  destruct (at_check_fields host this) as [Hp' [Hc' [Ht' _]]].
  rewrite Hp', Hc', Ht'. repeat split.
Qed.

Lemma step_titleId esc fmt (s : Step) (this : DialogBase) :
  _titleId (fst (step esc fmt s this)) = _titleId this.
Proof.
  destruct s as [host p ch|host e|host e|host e]; cbn [step fst].
  - rewrite (proj1 (render_at_check fmt host (setProperties p ch this))).
    destruct (open_raises (setProperties p ch this)); [reflexivity|].
    destruct (_checkFocus_frame host (at_check host (setProperties p ch this)))
      as [_ [_ [Ht _]]].
    cbn zeta in Ht. rewrite Ht.
    destruct (at_check_fields host (setProperties p ch this))
      as [_ [_ [Ht' _]]].
    rewrite Ht'. reflexivity.
  - rewrite _onCloseClick_run. reflexivity.
  - rewrite _onUnderlayClick_run. reflexivity.
  - rewrite _onKeyUp_run. reflexivity.
Qed.

(** X2. The title id given at construction is the title id of the
    instance after any sequence of render passes and events. *)
Theorem titleId_is_immutable esc fmt (steps : list Step) (this : DialogBase) :
  _titleId (fst (run esc fmt steps this)) = _titleId this.
Proof.
  revert this. induction steps as [|s rest IH]; intros this; [reflexivity|].
  rewrite run_cons. cbn [fst]. rewrite IH. apply step_titleId.
Qed.

Lemma step_event_instance esc fmt (s : Step) (this : DialogBase) :
  is_Render s = false -> fst (step esc fmt s this) = this.
Proof.
  destruct s as [host p ch|host e|host e|host e]; cbn [step fst is_Render];
    intros H; [discriminate H| | |].
  - rewrite _onCloseClick_run. reflexivity.
  - rewrite _onUnderlayClick_run. reflexivity.
  - rewrite _onKeyUp_run. reflexivity.
Qed.

(** X3. The listeners keep no state: the instance after a sequence of
    render passes and events is the instance after its render passes
    alone. *)
Theorem events_leave_the_instance
    esc fmt (steps : list Step) (this : DialogBase) :
  fst (run esc fmt steps this) =
  fst (run esc fmt (filter is_Render steps) this).
Proof.
  revert this. induction steps as [|s rest IH]; intros this; [reflexivity|].
  rewrite run_cons. cbn [fst filter].
  destruct (is_Render s) eqn:E.
  - rewrite run_cons. cbn [fst]. apply IH.
  - rewrite (step_event_instance esc fmt s this E). apply IH.
Qed.

(** X4. A click on the close button has its propagation stopped and
    issues a close request, whatever [modal] and [open] are: it invokes
    [onRequestClose] exactly when the callback is supplied and
    [closeable] is not false, and then once; it ends as the close
    request ends. *)
Theorem close_click_requests_close
    (e : MouseEvent) (host : Host) (this : DialogBase) :
  _onCloseClick e host this =
    (result (_close host this), this,
     StopPropagation (Mouse e) :: effects (_close host this))
  /\ (forall f, In (Call_onRequestClose f) (effects (_onCloseClick e host this))
                <-> onRequestClose (properties this) = Some f /\
                    closeable (properties this) <> Some false)
  /\ (count_onRequestClose (effects (_onCloseClick e host this)) <= 1)%nat.
Proof.
  rewrite _onCloseClick_run, _close_result.
  split; [reflexivity|]. cbn [effects snd]. split.
  - intros f. split.
    + intros [H|H]; [discriminate H|].
      apply _close_only_calls in H. destruct H as [g [E [Hg Hc]]].
      injection E as <-. auto.
    + intros [Hf Hc]. right. rewrite (_close_calls host this f Hc Hf).
      left. reflexivity.
  - unfold count_onRequestClose. cbn [filter is_Call_onRequestClose].
    destruct (_close_effects_cases host this) as [E|[f [_ [_ E]]]];
      rewrite E; cbn; lia.
Qed.

(** ** Focus *)

(** X5. A render pass moves focus exactly when the dialog is open, the
    pass is not ended by a raising callback and it ends with
    [_callFocus] up, and then onto the main region; it never moves focus
    anywhere else.  A pass that a callback makes raise moves no
    focus. *)
Theorem focus_set_iff_pending
    fmt (host : Host) (this : DialogBase) (k : string) :
  In (Focus_set k) (effects (render fmt host this)) <->
  k = "main" /\
  is_true (open (properties this)) = true /\
  _callFocus (instance (render fmt host this)) = true /\
  raised (render fmt host this) = false.
Proof.
  rewrite render_effects, (proj1 (render_at_check fmt host this)),
    render_raised, _checkFocus_raised.
  destruct (at_check_fields host this) as [Hp _].
  rewrite _checkFocus_run, Hp.
  destruct (open_raises this); cbn [orb].
  { split; [intros H; in_cases|intros [_ [_ [_ H]]]; discriminate H]. }
  destruct (is_true (open (properties this)));
    cbn [negb andb instance effects fst snd].
  2:{ split; [intros H; in_cases|intros [_ [H _]]; discriminate H]. }
  destruct (containsFocus (meta_Focus_get host "main"));
    cbn [negb andb instance effects fst snd].
  { split; [intros H; in_cases|intros [_ [_ [H _]]]; discriminate H]. }
  destruct (_initialFocusSet (at_check host this));
    cbn [negb andb instance effects fst snd].
  - destruct (is_true (modal (properties this)));
      cbn [negb andb instance effects fst snd].
    + split; [intros H; in_cases|].
      * injection H as <-. repeat split.
      * intros [-> _]. apply in_or_app. right. right. left. reflexivity.
    + destruct (close_raises (at_check host this)).
      * split; [intros H; in_cases|intros [_ [_ [_ H]]]; discriminate H].
      * split; [intros H; in_cases|].
        -- injection H as <-. repeat split.
        -- intros [-> [_ [H _]]]. rewrite H. apply in_or_app. right. right.
           apply in_or_app. right. left. reflexivity.
  - split; [intros H; in_cases|].
    + injection H as <-. repeat split.
    + intros [-> [_ [H _]]]. rewrite H. apply in_or_app. right. right.
      left. reflexivity.
Qed.

Lemma _close_no_Focus_get (host : Host) (this : DialogBase) :
  filter is_Focus_get (effects (_close host this)) = [].
Proof.
  destruct (_close_effects_cases host this) as [E|[f [_ [_ E]]]];
    rewrite E; reflexivity.
Qed.

(** X6. A render pass asks once whether focus is inside, and about the
    main region, when the dialog is open and [onOpen] did not end the
    pass at the open transition; otherwise (a closed dialog, or an
    [onOpen] that raised) it does not ask. *)
Theorem focus_is_queried_once_when_open
    fmt (host : Host) (this : DialogBase) :
  filter is_Focus_get (effects (render fmt host this)) =
  if is_true (open (properties this)) && negb (open_raises this)
  then [Focus_get "main"] else [].
Proof.
  rewrite render_effects, filter_app.
  destruct (at_check_fields host this) as [Hp _].
  rewrite _checkFocus_run, Hp.
  assert (H0 : filter is_Focus_get
                 (if open_edge this
                  then match onOpen (properties this) with
                       | Some f => [Call_onOpen f]
                       | None => []
                       end
                  else []) = []).
  { destruct (open_edge this); [destruct (onOpen (properties this))|];
      reflexivity. }
  rewrite H0. cbn [app].
  destruct (open_raises this); cbn [negb]; [rewrite andb_false_r; reflexivity|].
  rewrite andb_true_r.
  destruct (is_true (open (properties this))); cbn [negb]; [|reflexivity].
  destruct (containsFocus (meta_Focus_get host "main")); [reflexivity|].
  destruct (_initialFocusSet (at_check host this)).
  - destruct (is_true (modal (properties this))); [reflexivity|].
    cbn [effects snd filter is_Focus_get].
    rewrite filter_app, _close_no_Focus_get.
    destruct (close_raises (at_check host this)); [reflexivity|].
    destruct (_callFocus (at_check host this)); reflexivity.
  - destruct (_callFocus (at_check host this)); reflexivity.
Qed.

(** X7. The pass that opens the dialog never asks for it to be closed,
    modal or not and wherever focus is.  With an [onOpen] that returns
    (or none) it calls [onOpen], asks where focus is, and moves focus
    onto the main region unless focus is inside already.  With an
    [onOpen] that raises the pass is that call alone: no focus query, no
    focus set, [_callFocus] up, [_initialFocusSet] down and [_wasOpen]
    as before. *)
Theorem open_transition_takes_focus
    fmt (host : Host) (this : DialogBase) :
  open_edge this = true ->
  (raises_opt (onOpen (properties this)) = false ->
   effects (render fmt host this) =
     (match onOpen (properties this) with
      | Some f => [Call_onOpen f]
      | None => []
      end) ++
     Focus_get "main" ::
     (if containsFocus (meta_Focus_get host "main")
      then [] else [Focus_set "main"])
   /\ _initialFocusSet (instance (render fmt host this)) =
        containsFocus (meta_Focus_get host "main")
   /\ _callFocus (instance (render fmt host this)) =
        negb (containsFocus (meta_Focus_get host "main"))
   /\ raised (render fmt host this) = false)
  /\ (raises_opt (onOpen (properties this)) = true ->
      render fmt host this =
      (Raised, with_initialFocusSet false (with_callFocus true this),
       match onOpen (properties this) with
       | Some f => [Call_onOpen f]
       | None => []
       end))
  /\ forall f, ~ In (Call_onRequestClose f) (effects (render fmt host this)).
Proof.
  intros He.
  assert (Ho : is_true (open (properties this)) = true).
  { apply open_edge_iff in He. exact (proj1 He). }
  destruct (at_check_fields host this) as [Hp [_ [_ [_ [Hc Hi]]]]].
  rewrite He in Hc, Hi.
  split; [|split].
  - intros Hr.
    rewrite render_effects, (proj1 (render_at_check fmt host this)),
      render_raised, _checkFocus_raised.
    unfold open_raises. rewrite He, Hr. cbn [andb orb].
    rewrite _checkFocus_run, Hp, Ho, Hi, Hc. cbn [negb andb].
    rewrite andb_false_r.
    destruct (containsFocus (meta_Focus_get host "main"));
      cbn [instance effects fst snd with_initialFocusSet with_callFocus
           _initialFocusSet _callFocus negb];
      repeat split; assumption.
  - intros Hr. rewrite (render_edge_raises fmt host this He Hr), _onOpen_run.
    reflexivity.
  - intros f H. rewrite render_effects in H. rewrite He in H.
    apply in_app_or in H. destruct H as [H|H]; [in_cases|].
    destruct (open_raises this); [destruct H|].
    rewrite _checkFocus_run, Hp, Ho, Hi, Hc in H. cbn [negb] in H.
    destruct (containsFocus (meta_Focus_get host "main"));
      cbn [effects snd] in H; in_cases.
Qed.

Lemma open_transition_takes_focus_witness :
  effects (render sample_aria (sample_host false)
             (sample_new (sample_properties (Some true) None None))) =
    [Call_onOpen (Fn "opened"); Focus_get "main"; Focus_set "main"]
  /\ render sample_aria (sample_host false)
       (sample_new (sample_raising (Some true) None None)) =
     (Raised,
      with_initialFocusSet false
        (with_callFocus true (sample_new (sample_raising (Some true) None None))),
      [Call_onOpen (Raising "opened")]).
Proof.
  split.
  - destruct (open_transition_takes_focus sample_aria (sample_host false)
                (sample_new (sample_properties (Some true) None None))
                eq_refl) as [H _].
    exact (proj1 (H eq_refl)).
  - destruct (open_transition_takes_focus sample_aria (sample_host false)
                (sample_new (sample_raising (Some true) None None))
                eq_refl) as [_ [H _]].
    exact (H eq_refl).
Defined.

(** X8. A render pass of a modal dialog never invokes
    [onRequestClose], whatever the instance and wherever focus is: a
    modal dialog is closed through the close button or the Escape key
    only. *)
Theorem modal_render_never_requests_close
    fmt (host : Host) (this : DialogBase) :
  is_true (modal (properties this)) = true ->
  forall f, ~ In (Call_onRequestClose f) (effects (render fmt host this)).
Proof.
  intros Hm f H. rewrite render_effects in H.
  destruct (at_check_fields host this) as [Hp _].
  apply in_app_or in H. destruct H as [H|H]; [in_cases|].
  destruct (open_raises this); [destruct H|].
  rewrite _checkFocus_run, Hp, Hm in H.
  destruct (negb (is_true (open (properties this))));
    [|destruct (containsFocus (meta_Focus_get host "main"));
      [|destruct (_initialFocusSet (at_check host this))]];
    cbn [effects snd] in H; in_cases.
Qed.

Lemma modal_render_never_requests_close_witness :
  ~ In (Call_onRequestClose (Fn "requestClose"))
      (effects (render sample_aria (sample_host false)
                  (sample_focused (sample_properties (Some true) (Some true) None)))).
Proof.
  apply (modal_render_never_requests_close sample_aria (sample_host false)
           (sample_focused (sample_properties (Some true) (Some true) None))
           eq_refl).
Defined.

(** ** The focus trap over the life of a dialog *)

Lemma render_trap_armed fmt (host : Host) (this : DialogBase) :
  trap_armed this -> trap_armed (instance (render fmt host this)).
Proof.
  intros Ha Hw.
  rewrite render_wasOpen in Hw.
  rewrite (proj1 (render_at_check fmt host this)).
  destruct (open_raises this) eqn:Hr; [left; reflexivity|].
  rewrite is_true_open_default in Hw. cbn [is_true] in Hw.
  assert (Ho : is_true (open (properties this)) = true).
  { destruct (is_true (open (properties this))); [reflexivity|discriminate Hw]. }
  rewrite _checkFocus_run.
  destruct (at_check_fields host this) as [Hp [_ [_ [_ [Hc Hi]]]]].
  rewrite Hp, Ho. cbn [negb].
  destruct (containsFocus (meta_Focus_get host "main"));
    [right; reflexivity|].
  destruct (_initialFocusSet (at_check host this)) eqn:Ei.
  - destruct (is_true (modal (properties this)));
      [left; reflexivity|right; exact Ei].
  - cbn [instance fst snd]. left. rewrite Hc.
    destruct (open_edge this) eqn:He; [reflexivity|].
    rewrite Hi in Ei.
    unfold open_edge in He. rewrite is_true_open_default, Ho in He.
    cbn [andb] in He. apply negb_false_iff in He.
    destruct (Ha He) as [H|H]; [exact H|congruence].
Qed.

Lemma run_trap_armed esc fmt (steps : list Step) :
  forall this : DialogBase,
    trap_armed this -> trap_armed (fst (run esc fmt steps this)).
Proof.
  induction steps as [|s rest IH]; intros this Ha; [exact Ha|].
  rewrite run_cons. cbn [fst]. apply IH.
  destruct s as [host p ch|host e|host e|host e]; cbn [step fst].
  - apply render_trap_armed. exact Ha.
  - rewrite _onCloseClick_run. exact Ha.
  - rewrite _onUnderlayClick_run. exact Ha.
  - rewrite _onKeyUp_run. exact Ha.
Qed.

(** What an open dialog does in a pass in which focus is outside, when
    it is armed. *)
Lemma render_armed_focus_outside (host : Host) (this : DialogBase) :
  trap_armed this ->
  is_true (open (properties this)) = true ->
  containsFocus (meta_Focus_get host "main") = false ->
  _callFocus (at_check host this) = true \/
  _initialFocusSet (at_check host this) = true.
Proof.
  intros Ha Ho Hf.
  destruct (at_check_fields host this) as [_ [_ [_ [_ [Hc Hi]]]]].
  rewrite Hc, Hi.
  destruct (open_edge this) eqn:He; [left; reflexivity|].
  unfold open_edge in He. rewrite is_true_open_default, Ho in He.
  cbn [andb] in He. apply negb_false_iff in He. exact (Ha He).
Qed.

Lemma new_DialogBase_armed esc fmt (p0 : DialogProperties) (ch0 : list DNode)
    (id : string) (steps : list Step) (p : DialogProperties) (ch : list DNode) :
  trap_armed
    (setProperties p ch (fst (run esc fmt steps (new_DialogBase p0 ch0 id)))).
Proof.
  intros Hw. cbn [setProperties _wasOpen _callFocus _initialFocusSet] in *.
  apply (run_trap_armed esc fmt steps (new_DialogBase p0 ch0 id));
    [intros H; discriminate H|exact Hw].
Qed.

(** X9. Take a dialog from its construction through any sequence of
    render passes and events, whatever their callbacks do.  In every
    later pass in which it is open and modal, focus is not inside and
    [onOpen], if the pass calls it, returns, it moves focus onto the
    main region and does not invoke [onRequestClose]. *)
Theorem open_modal_dialog_always_takes_focus_back
    esc fmt (p0 : DialogProperties) (ch0 : list DNode) (id : string)
    (steps : list Step)
    (host : Host) (p : DialogProperties) (ch : list DNode) :
  is_true (open p) = true ->
  is_true (modal p) = true ->
  containsFocus (meta_Focus_get host "main") = false ->
  raises_opt (onOpen p) = false ->
  let before :=
    setProperties p ch (fst (run esc fmt steps (new_DialogBase p0 ch0 id))) in
  In (Focus_set "main") (effects (render fmt host before)) /\
  _callFocus (instance (render fmt host before)) = true /\
  raised (render fmt host before) = false /\
  forall f, ~ In (Call_onRequestClose f) (effects (render fmt host before)).
Proof.
  intros Ho Hm Hf Hr before.
  pose proof (new_DialogBase_armed esc fmt p0 ch0 id steps p ch) as Ha.
  fold before in Ha.
  assert (Hn : open_raises before = false).
  { unfold open_raises. subst before. cbn [setProperties properties].
    rewrite Hr. apply andb_false_r. }
  assert (Hp : properties (at_check host before) = p).
  { rewrite (proj1 (at_check_fields host before)). reflexivity. }
  assert (Hchk : _checkFocus host (at_check host before) =
                 (Returned tt, with_callFocus true (at_check host before),
                  [Focus_get "main"; Focus_set "main"])).
  { rewrite _checkFocus_run, Hp, Ho, Hm, Hf. cbn [negb].
    destruct (render_armed_focus_outside host before Ha Ho Hf) as [H|H].
    - destruct (_initialFocusSet (at_check host before)); [reflexivity|].
      rewrite H. destruct (at_check host before). cbn in H. subst.
      reflexivity.
    - rewrite H. reflexivity. }
  rewrite render_effects, (proj1 (render_at_check fmt host before)),
    render_raised, Hn, Hchk.
  cbn [orb instance effects fst snd raised result with_callFocus _callFocus].
  split; [apply in_or_app; right; right; left; reflexivity|].
  split; [reflexivity|]. split; [reflexivity|].
  intros f H. in_cases.
Qed.

Lemma open_modal_dialog_always_takes_focus_back_witness :
  In (Focus_set "main")
     (effects
        (render sample_aria (sample_host false)
           (setProperties (sample_properties (Some true) (Some true) None) []
              (fst (run 27 sample_aria
                      [ Render (sample_host false)
                          (sample_raising (Some true) (Some true) None) [];
                        Render (sample_host true)
                          (sample_properties (Some true) (Some true) None) [];
                        KeyUp (sample_host true) {| which := 13 |} ]
                      (new_DialogBase (sample_properties None None None) [] "id-1")))))).
Proof.
  apply (open_modal_dialog_always_takes_focus_back 27 sample_aria
           (sample_properties None None None) [] "id-1"
           [ Render (sample_host false)
               (sample_raising (Some true) (Some true) None) [];
             Render (sample_host true)
               (sample_properties (Some true) (Some true) None) [];
             KeyUp (sample_host true) {| which := 13 |} ]
           (sample_host false) (sample_properties (Some true) (Some true) None) []
           eq_refl eq_refl eq_refl eq_refl).
Defined.

(** ** The tree of an open dialog *)

Lemma prop_lookup_app (key : string) (a b : list (string * Value)) :
  prop_lookup key (a ++ b) =
  match prop_lookup key b with
  | Some y => Some y
  | None => prop_lookup key a
  end.
Proof.
  induction a as [|[k x] a IH]; cbn [app prop_lookup].
  - destruct (prop_lookup key b); reflexivity.
  - rewrite IH. destruct (prop_lookup key b); reflexivity.
Qed.

(** X10. The tree a pass of an open dialog returns has three children
    under the root: the registration of the document's key-up listener
    [_onKeyUp], the underlay, whose click listener is
    [_onUnderlayClick], and the main region, made of the title bar and
    of the content node that holds the caller's children as they are.
    The pass returns a tree whenever the callbacks return. *)
Theorem open_dialog_tree_shape fmt (host : Host) (this : DialogBase) :
  is_true (open (properties this)) = true ->
  (callbacks_return this ->
   exists root, result (render fmt host this) = Returned root)
  /\ forall root,
    result (render fmt host this) = Returned root ->
    length (node_children root) = 3%nat
    /\ child 0 root =
       Some (w GlobalEvent
               [ ("key", VString "global");
                 ("document", VObject [ ("keyup", VFunction this_onKeyUp) ]) ])
    /\ (exists underlay,
          child 1 root = Some underlay /\
          prop_lookup "key" (node_props underlay) = Some (VString "underlay") /\
          prop_lookup "onclick" (node_props underlay) =
            Some (VFunction this_onUnderlayClick) /\
          node_children underlay = [])
    /\ (exists main titleBar content,
          child 2 root = Some main /\
          node_children main = [titleBar; content] /\
          prop_lookup "key" (node_props content) = Some (VString "content") /\
          node_children content = children this).
Proof.
  intros Ho. split; [apply render_returns|].
  intros root Hr. rewrite (render_tree_open fmt host this root Ho Hr).
  split; [reflexivity|]. split; [reflexivity|]. split.
  - eexists. split; [reflexivity|]. repeat split.
  - do 3 eexists. split; [reflexivity|]. repeat split.
Qed.

Lemma open_dialog_tree_shape_witness :
  exists root,
    result (render sample_aria (sample_host false)
              (sample_new (sample_properties (Some true) None None))) =
    Returned root /\
    child 0 root =
    Some (w GlobalEvent
            [ ("key", VString "global");
              ("document", VObject [ ("keyup", VFunction this_onKeyUp) ]) ]).
Proof.
  destruct (open_dialog_tree_shape sample_aria (sample_host false)
              (sample_new (sample_properties (Some true) None None)) eq_refl)
    as [Hex H].
  destruct (Hex (conj eq_refl eq_refl)) as [root Hr].
  exists root. split; [exact Hr|]. exact (proj1 (proj2 (H root Hr))).
Defined.

(** X11. The attributes the widget writes on the main region win over
    whatever the caller's [aria] formats to: [aria-labelledby] is the
    title id, which is the [id] of the title element, [key] is "main",
    [tabIndex] is -1, and [role] is the caller's role or "dialog" when
    there is none.  The pass returns a tree whenever the callbacks
    return. *)
Theorem main_region_attributes_win_over_aria
    fmt (host : Host) (this : DialogBase) :
  is_true (open (properties this)) = true ->
  (callbacks_return this ->
   exists root, result (render fmt host this) = Returned root)
  /\ forall root,
  result (render fmt host this) = Returned root ->
  exists main titleBar titleNode,
    child 2 root = Some main /\
    child 0 main = Some titleBar /\
    child 0 titleBar = Some titleNode /\
    prop_lookup "id" (node_props titleNode) = Some (VString (_titleId this)) /\
    node_children titleNode = [text (default "" (title (properties this)))] /\
    prop_lookup "aria-labelledby" (node_props main) =
      Some (VString (_titleId this)) /\
    prop_lookup "key" (node_props main) = Some (VString "main") /\
    prop_lookup "tabIndex" (node_props main) = Some (VNumber (-1)) /\
    prop_lookup "role" (node_props main) =
      Some (VString (role_string (default dialog (role (properties this))))) /\
    prop_lookup "enterAnimation" (node_props main) =
      Some (animation host (enterAnimation (properties this)) css_enter) /\
    prop_lookup "exitAnimation" (node_props main) =
      Some (animation host (exitAnimation (properties this)) css_exit).
Proof.
  intros Ho. split; [apply render_returns|].
  intros root Hr. rewrite (render_tree_open fmt host this root Ho Hr).
  do 3 eexists. split; [reflexivity|]. split; [reflexivity|].
  split; [reflexivity|].
  cbn [node_props node_children renderTitle].
  rewrite !prop_lookup_app.
  repeat split.
Qed.

Lemma main_region_attributes_win_over_aria_witness :
  exists root main,
    result (render (fun _ => [("role", VString "button");
                              ("aria-labelledby", VString "other")])
              (sample_host false)
              (sample_new (sample_properties (Some true) None None))) =
      Returned root /\
    child 2 root = Some main /\
    prop_lookup "role" (node_props main) = Some (VString "dialog") /\
    prop_lookup "aria-labelledby" (node_props main) = Some (VString "id-1").
Proof.
  destruct (main_region_attributes_win_over_aria
              (fun _ => [("role", VString "button");
                         ("aria-labelledby", VString "other")])
              (sample_host false)
              (sample_new (sample_properties (Some true) None None))
              eq_refl) as [Hex H].
  destruct (Hex (conj eq_refl eq_refl)) as [root Hr].
  destruct (H root Hr)
    as [main [tb [tn [H1 [_ [_ [_ [_ [H2 [_ [_ [H3 _]]]]]]]]]]]].
  exists root, main. split; [exact Hr|]. split; [exact H1|].
  split; [exact H3|exact H2].
Defined.

(** X12. An open dialog with [closeable] false has no close button:
    in the tree the pass returns, the place of the close control in the
    title bar holds [null], after the title element.  The pass returns
    a tree whenever the callbacks return. *)
Theorem not_closeable_has_no_close_button
    fmt (host : Host) (this : DialogBase) :
  is_true (open (properties this)) = true ->
  closeable (properties this) = Some false ->
  (callbacks_return this ->
   exists root, result (render fmt host this) = Returned root)
  /\ forall root,
  result (render fmt host this) = Returned root ->
  closeControl root = Some null /\
  closeControlText root = None /\
  exists main titleBar,
    child 2 root = Some main /\
    child 0 main = Some titleBar /\
    node_children titleBar = [renderTitle this; null].
Proof.
  intros Ho Hc. split; [apply render_returns|].
  intros root Hr. unfold closeControlText.
  rewrite (render_closeControl fmt host this root Ho Hr), Hc.
  split; [reflexivity|]. split; [reflexivity|].
  rewrite (render_tree_open fmt host this root Ho Hr), Hc.
  do 2 eexists. repeat split.
Qed.

Lemma not_closeable_has_no_close_button_witness :
  exists root,
    result (render sample_aria (sample_host false)
              (sample_new (sample_properties (Some true) None (Some false)))) =
      Returned root /\
    closeControl root = Some null.
Proof.
  destruct (not_closeable_has_no_close_button sample_aria (sample_host false)
              (sample_new (sample_properties (Some true) None (Some false)))
              eq_refl eq_refl) as [Hex H].
  destruct (Hex (conj eq_refl eq_refl)) as [root Hr].
  exists root. split; [exact Hr|]. exact (proj1 (H root Hr)).
Defined.

(** X13. A [closeText] that is not the empty string is the text of
    the close button as it is, whatever the title and the locale.  The
    pass returns a tree whenever the callbacks return. *)
Theorem supplied_closeText_is_shown
    fmt (host : Host) (this : DialogBase) (s : string) :
  closeText (properties this) = Some s ->
  s <> "" ->
  is_true (open (properties this)) = true ->
  closeable (properties this) <> Some false ->
  (callbacks_return this ->
   exists root, result (render fmt host this) = Returned root)
  /\ forall root,
  result (render fmt host this) = Returned root ->
  closeControlText root = Some s.
Proof.
  intros Ht Hs Ho Hc. split; [apply render_returns|].
  intros root Hr.
  assert (Hd : default true (closeable (properties this)) = true).
  { destruct (closeable (properties this)) as [[|]|]; cbn; congruence. }
  unfold closeControlText.
  rewrite (render_closeControl fmt host this root Ho Hr), Hd.
  unfold closeText_of. rewrite Ht. cbn [not_string default].
  apply String.eqb_neq in Hs. rewrite Hs. reflexivity.
Qed.

Lemma supplied_closeText_is_shown_witness :
  exists root,
    result (render sample_aria (sample_host false)
              (sample_new
                 (with_closeText (Some "Dismiss")
                    (sample_properties (Some true) None None)))) =
      Returned root /\
    closeControlText root = Some "Dismiss".
Proof.
  destruct (supplied_closeText_is_shown sample_aria (sample_host false)
              (sample_new
                 (with_closeText (Some "Dismiss")
                    (sample_properties (Some true) None None)))
              "Dismiss" eq_refl ltac:(discriminate) eq_refl
              ltac:(discriminate)) as [Hex H].
  destruct (Hex (conj eq_refl eq_refl)) as [root Hr].
  exists root. split; [exact Hr|]. exact (H root Hr).
Defined.

(** X14. Take a dialog from its construction through any sequence of
    render passes and events, whatever their callbacks do.  In every
    later pass in which it is open and not modal, focus is not inside
    and [onOpen], if the pass calls it, returns, it reacts: it moves
    focus onto the main region, or it invokes the [onRequestClose] it
    has (with [closeable] not false). *)
Theorem open_nonmodal_dialog_reacts_to_focus_outside
    esc fmt (p0 : DialogProperties) (ch0 : list DNode) (id : string)
    (steps : list Step)
    (host : Host) (p : DialogProperties) (ch : list DNode) (f : Callback) :
  is_true (open p) = true ->
  is_true (modal p) = false ->
  containsFocus (meta_Focus_get host "main") = false ->
  onRequestClose p = Some f ->
  closeable p <> Some false ->
  raises_opt (onOpen p) = false ->
  let before :=
    setProperties p ch (fst (run esc fmt steps (new_DialogBase p0 ch0 id))) in
  In (Focus_set "main") (effects (render fmt host before)) \/
  In (Call_onRequestClose f) (effects (render fmt host before)).
Proof.
  intros Ho Hm Hf Hrc Hc Hr before.
  pose proof (new_DialogBase_armed esc fmt p0 ch0 id steps p ch) as Ha.
  fold before in Ha.
  assert (Hn : open_raises before = false).
  { unfold open_raises. subst before. cbn [setProperties properties].
    rewrite Hr. apply andb_false_r. }
  assert (Hp : properties (at_check host before) = p).
  { rewrite (proj1 (at_check_fields host before)). reflexivity. }
  rewrite render_effects, Hn, _checkFocus_run, Hp, Ho, Hm, Hf.
  cbn [negb].
  assert (Hcl : effects (_close host (at_check host before)) =
                [Call_onRequestClose f]).
  { apply _close_calls; rewrite Hp; assumption. }
  destruct (_initialFocusSet (at_check host before)) eqn:Ei.
  - right. apply in_or_app. right. cbn [effects snd]. right.
    apply in_or_app. left. rewrite Hcl. left. reflexivity.
  - left. apply in_or_app. right. cbn [effects snd].
    destruct (render_armed_focus_outside host before Ha Ho Hf) as [H|H];
      [|congruence].
    rewrite H. right. left. reflexivity.
Qed.

Lemma open_nonmodal_dialog_reacts_to_focus_outside_witness :
  In (Focus_set "main")
     (effects
        (render sample_aria (sample_host false)
           (setProperties (sample_properties (Some true) None None) []
              (fst (run 27 sample_aria
                      [ Render (sample_host true)
                          (sample_properties (Some true) None None) [] ]
                      (new_DialogBase (sample_properties None None None) [] "id-1"))))))
  \/
  In (Call_onRequestClose (Fn "requestClose"))
     (effects
        (render sample_aria (sample_host false)
           (setProperties (sample_properties (Some true) None None) []
              (fst (run 27 sample_aria
                      [ Render (sample_host true)
                          (sample_properties (Some true) None None) [] ]
                      (new_DialogBase (sample_properties None None None) [] "id-1")))))).
Proof.
  apply (open_nonmodal_dialog_reacts_to_focus_outside 27 sample_aria
           (sample_properties None None None) [] "id-1"
           [ Render (sample_host true)
               (sample_properties (Some true) None None) [] ]
           (sample_host false) (sample_properties (Some true) None None) []
           (Fn "requestClose") eq_refl eq_refl eq_refl eq_refl);
    [discriminate|reflexivity].
Defined.

Lemma run_events_instance esc fmt (events : list Step) :
  Forall (fun s => is_Render s = false) events ->
  forall this : DialogBase, fst (run esc fmt events this) = this.
Proof.
  induction 1 as [|s rest Hs _ IH]; intros this; [reflexivity|].
  rewrite run_cons. cbn [fst].
  rewrite (step_event_instance esc fmt s this Hs). apply IH.
Qed.

(** X15. After a pass of the closed dialog, and any events, the next
    pass of the open dialog is an open transition again, whatever
    happened before.  When its [onOpen] returns (or there is none), the
    pass calls [onOpen], forgets that focus was ever inside, and takes
    focus unless focus is inside already. *)
Theorem closing_rearms_the_open_transition
    esc fmt (host1 : Host) (p1 : DialogProperties) (ch1 : list DNode)
    (events : list Step)
    (host2 : Host) (p2 : DialogProperties) (ch2 : list DNode)
    (this : DialogBase) :
  is_true (open p1) = false ->
  Forall (fun s => is_Render s = false) events ->
  is_true (open p2) = true ->
  let mid := fst (run esc fmt (Render host1 p1 ch1 :: events) this) in
  let r := render fmt host2 (setProperties p2 ch2 mid) in
  open_edge (setProperties p2 ch2 mid) = true
  /\ (raises_opt (onOpen p2) = false ->
      effects r =
        (match onOpen p2 with
         | Some f => [Call_onOpen f]
         | None => []
         end) ++
        Focus_get "main" ::
        (if containsFocus (meta_Focus_get host2 "main")
         then [] else [Focus_set "main"])
      /\ _initialFocusSet (instance r) =
           containsFocus (meta_Focus_get host2 "main")
      /\ _callFocus (instance r) =
           negb (containsFocus (meta_Focus_get host2 "main"))).
Proof.
  intros Ho1 Hev Ho2 mid r. subst r.
  assert (Hw : _wasOpen mid = Some false).
  { subst mid. rewrite run_cons. cbn [fst].
    rewrite (run_events_instance esc fmt events Hev).
    rewrite step_wasOpen.
    rewrite (open_raises_no_edge _
               (open_edge_closed (setProperties p1 ch1 this) Ho1)).
    rewrite is_true_open_default, Ho1. reflexivity. }
  assert (He : open_edge (setProperties p2 ch2 mid) = true).
  { unfold open_edge. cbn [setProperties properties _wasOpen].
    rewrite is_true_open_default, Ho2, Hw. reflexivity. }
  split; [exact He|]. intros Hr.
  assert (Hn : open_raises (setProperties p2 ch2 mid) = false).
  { unfold open_raises. cbn [setProperties properties].
    rewrite Hr. apply andb_false_r. }
  rewrite render_effects,
    (proj1 (render_at_check fmt host2 (setProperties p2 ch2 mid))), He, Hn.
  destruct (at_check_fields host2 (setProperties p2 ch2 mid))
    as [Hp [_ [_ [_ [Hc Hi]]]]].
  rewrite He in Hc, Hi.
  rewrite _checkFocus_run, Hp, Hi, Hc.
  cbn [setProperties properties]. rewrite Ho2. cbn [negb].
  destruct (containsFocus (meta_Focus_get host2 "main"));
    cbn [instance effects fst snd with_initialFocusSet with_callFocus
         _initialFocusSet _callFocus negb];
    repeat split; assumption.
Qed.

Lemma closing_rearms_the_open_transition_witness :
  effects
    (render sample_aria (sample_host false)
       (setProperties (sample_properties (Some true) None None) []
          (fst (run 27 sample_aria
                  [ Render (sample_host false)
                      (sample_properties (Some false) None None) [];
                    KeyUp (sample_host false) {| which := 27 |} ]
                  (sample_focused (sample_properties (Some true) None None)))))) =
  [Call_onOpen (Fn "opened"); Focus_get "main"; Focus_set "main"].
Proof.
  destruct (closing_rearms_the_open_transition 27 sample_aria
              (sample_host false) (sample_properties (Some false) None None) []
              [ KeyUp (sample_host false) {| which := 27 |} ]
              (sample_host false) (sample_properties (Some true) None None) []
              (sample_focused (sample_properties (Some true) None None))
              eq_refl ltac:(repeat constructor) eq_refl) as [_ H].
  exact (proj1 (H eq_refl)).
Defined.

(** ** What a step does to the outside *)

Lemma _close_count (host : Host) (this : DialogBase) :
  (count_onRequestClose (effects (_close host this)) <= 1)%nat.
Proof.
  unfold count_onRequestClose.
  destruct (_close_effects_cases host this) as [E|[f [_ [_ E]]]];
    rewrite E; cbn; lia.
Qed.

Lemma count_onRequestClose_app (t1 t2 : list Effect) :
  count_onRequestClose (t1 ++ t2) =
  (count_onRequestClose t1 + count_onRequestClose t2)%nat.
Proof.
  unfold count_onRequestClose. rewrite filter_app, length_app. reflexivity.
Qed.

(** X16. No render pass and no event invokes [onRequestClose] more
    than once. *)
Theorem a_step_requests_close_at_most_once
    esc fmt (s : Step) (this : DialogBase) :
  (count_onRequestClose (snd (step esc fmt s this)) <= 1)%nat.
Proof.
  destruct s as [host p ch|host e|host e|host e]; cbn [step snd].
  - rewrite render_effects, count_onRequestClose_app.
    set (this' := setProperties p ch this).
    assert (H0 : count_onRequestClose
                   (if open_edge this'
                    then match onOpen (properties this') with
                         | Some f => [Call_onOpen f]
                         | None => []
                         end
                    else []) = 0%nat).
    { destruct (open_edge this'); [destruct (onOpen (properties this'))|];
        reflexivity. }
    rewrite H0. cbn [Nat.add].
    destruct (open_raises this'); [cbn; lia|].
    rewrite _checkFocus_run.
    pose proof (_close_count host (at_check host this')) as Hc.
    destruct (negb (is_true (open (properties (at_check host this')))));
      [cbn; lia|].
    destruct (containsFocus (meta_Focus_get host "main")); [cbn; lia|].
    destruct (_initialFocusSet (at_check host this')).
    + destruct (is_true (modal (properties (at_check host this'))));
        [cbn; lia|].
      cbn [effects snd].
      change (Focus_get "main" :: ?l) with ([Focus_get "main"] ++ l).
      rewrite !count_onRequestClose_app.
      destruct (close_raises (at_check host this')); [cbn in *; lia|].
      destruct (_callFocus (at_check host this')); cbn in *; lia.
    + destruct (_callFocus (at_check host this')); cbn; lia.
  - rewrite _onCloseClick_run. cbn [effects snd].
    pose proof (_close_count host this).
    unfold count_onRequestClose in *. cbn [filter is_Call_onRequestClose]. lia.
  - rewrite _onUnderlayClick_run. cbn [effects snd].
    pose proof (_close_count host this).
    unfold count_onRequestClose in *. cbn [filter is_Call_onRequestClose].
    destruct (is_true (modal (properties this))); cbn in *; lia.
  - rewrite _onKeyUp_run. cbn [effects snd].
    pose proof (_close_count host this).
    unfold count_onRequestClose in *. cbn [filter is_Call_onRequestClose].
    destruct (which e =? esc); cbn in *; lia.
Qed.

(** X17. Only the listeners stop propagation, once and before anything
    else, and beyond that they do nothing but call [onRequestClose]:
    they never ask for focus, never move it and never call [onOpen].  A
    render pass stops the propagation of nothing. *)
Theorem listeners_stop_propagation_and_only_close :
  (forall fmt (host : Host) (this : DialogBase),
     filter is_StopPropagation (effects (render fmt host this)) = [])
  /\ (forall esc fmt (s : Step) (this : DialogBase),
        is_Render s = false ->
        exists ev t,
          snd (step esc fmt s this) = StopPropagation ev :: t /\
          forall e, In e t -> exists f, e = Call_onRequestClose f).
Proof.
  split.
  - intros fmt host this. rewrite render_effects, filter_app.
    assert (Hc : filter is_StopPropagation
                   (effects (_close host (at_check host this))) = []).
    { destruct (_close_effects_cases host (at_check host this))
        as [E|[f [_ [_ E]]]]; rewrite E; reflexivity. }
    assert (H0 : filter is_StopPropagation
                   (if open_edge this
                    then match onOpen (properties this) with
                         | Some f => [Call_onOpen f]
                         | None => []
                         end
                    else []) = []).
    { destruct (open_edge this); [destruct (onOpen (properties this))|];
        reflexivity. }
    rewrite H0. cbn [app].
    destruct (open_raises this); [reflexivity|].
    rewrite _checkFocus_run.
    destruct (negb (is_true (open (properties (at_check host this)))));
      [reflexivity|].
    destruct (containsFocus (meta_Focus_get host "main")); [reflexivity|].
    destruct (_initialFocusSet (at_check host this)).
    + destruct (is_true (modal (properties (at_check host this))));
        [reflexivity|].
      cbn [effects snd filter is_StopPropagation].
      rewrite filter_app, Hc.
      destruct (close_raises (at_check host this)); [reflexivity|].
      destruct (_callFocus (at_check host this)); reflexivity.
    + destruct (_callFocus (at_check host this)); reflexivity.
  - intros esc fmt s this Hs.
    destruct s as [host p ch|host e|host e|host e]; cbn [step snd];
      [discriminate Hs| | |].
    + rewrite _onCloseClick_run. do 2 eexists. split; [reflexivity|].
      intros x Hx. apply _close_only_calls in Hx.
      destruct Hx as [f [Hx _]]. exists f. exact Hx.
    + rewrite _onUnderlayClick_run. do 2 eexists. split; [reflexivity|].
      intros x Hx. destruct (is_true (modal (properties this))); [destruct Hx|].
      apply _close_only_calls in Hx.
      destruct Hx as [f [Hx _]]. exists f. exact Hx.
    + rewrite _onKeyUp_run. do 2 eexists. split; [reflexivity|].
      intros x Hx. destruct (which e =? esc); [|destruct Hx].
      apply _close_only_calls in Hx.
      destruct Hx as [f [Hx _]]. exists f. exact Hx.
Qed.

Lemma listeners_stop_propagation_and_only_close_witness :
  exists ev t,
    snd (step 27 sample_aria (KeyUp (sample_host false) {| which := 27 |})
           (sample_focused (sample_properties (Some true) None None))) =
    StopPropagation ev :: t /\
    forall e, In e t -> exists f, e = Call_onRequestClose f.
Proof.
  apply (proj2 listeners_stop_propagation_and_only_close 27 sample_aria
           (KeyUp (sample_host false) {| which := 27 |})
           (sample_focused (sample_properties (Some true) None None))).
  reflexivity.
Defined.

(** X18. A pass of the open dialog that finds focus inside, and that
    [onOpen] does not end at the open transition, is quiet: beyond the
    call of [onOpen] at an open transition it only asks where focus is.
    It moves no focus and asks for no close, modal or not, and it ends
    with [_callFocus] down and [_initialFocusSet] up. *)
Theorem focus_inside_is_quiet fmt (host : Host) (this : DialogBase) :
  is_true (open (properties this)) = true ->
  containsFocus (meta_Focus_get host "main") = true ->
  open_raises this = false ->
  effects (render fmt host this) =
    (if open_edge this
     then match onOpen (properties this) with
          | Some f => [Call_onOpen f]
          | None => []
          end
     else []) ++ [Focus_get "main"]
  /\ _callFocus (instance (render fmt host this)) = false
  /\ _initialFocusSet (instance (render fmt host this)) = true
  /\ raised (render fmt host this) = false.
Proof.
  intros Ho Hf Hr.
  rewrite render_effects, (proj1 (render_at_check fmt host this)),
    render_raised, _checkFocus_raised, Hr.
  rewrite _checkFocus_run, (proj1 (at_check_fields host this)), Ho, Hf.
  repeat split.
Qed.

Lemma focus_inside_is_quiet_witness :
  effects (render sample_aria (sample_host true)
             (sample_focused (sample_properties (Some true) None None))) =
  [Focus_get "main"].
Proof.
  destruct (focus_inside_is_quiet sample_aria (sample_host true)
              (sample_focused (sample_properties (Some true) None None))
              eq_refl eq_refl eq_refl) as [H _].
  exact H.
Defined.

(** X19. An open dialog always has its underlay element, with the
    fixed underlay class and the click listener, whether [underlay] is
    set or not; [underlay] only decides whether the themed class of a
    visible underlay is asked for.  The pass returns a tree whenever the
    callbacks return. *)
Theorem underlay_is_always_rendered
    fmt (host : Host) (this : DialogBase) :
  is_true (open (properties this)) = true ->
  (callbacks_return this ->
   exists root, result (render fmt host this) = Returned root)
  /\ forall root,
  result (render fmt host this) = Returned root ->
  exists node,
    child 1 root = Some node /\
    prop_lookup "classes" (node_props node) =
      Some (VArray
              [ this_theme host
                  (if is_true (underlay (properties this))
                   then Some css_underlayVisible else None);
                VCss fixedCss_underlay ]) /\
    prop_lookup "onclick" (node_props node) =
      Some (VFunction this_onUnderlayClick).
Proof.
  intros Ho. split; [apply render_returns|].
  intros root Hr. rewrite (render_tree_open fmt host this root Ho Hr).
  eexists. split; [reflexivity|]. split; reflexivity.
Qed.

Lemma underlay_is_always_rendered_witness :
  exists root node,
    result (render sample_aria (sample_host false)
              (sample_new (sample_properties (Some true) None None))) =
      Returned root /\
    child 1 root = Some node /\
    prop_lookup "classes" (node_props node) =
      Some (VArray [ VNull; VCss fixedCss_underlay ]).
Proof.
  destruct (underlay_is_always_rendered sample_aria (sample_host false)
              (sample_new (sample_properties (Some true) None None))
              eq_refl) as [Hex H].
  destruct (Hex (conj eq_refl eq_refl)) as [root Hr].
  destruct (H root Hr) as [node [H1 [H2 _]]].
  exists root, node. split; [exact Hr|]. split; [exact H1|exact H2].
Defined.
